(** * Cinema service: the view layer of [cinema/views.py]

    A shallow embedding of the request handlers of the cinema booking
    API and of the parts of Python, Django and Django REST framework
    they are written against, followed by the properties the handlers
    have.

    Layout: Python values and exceptions ([Py]); the relational store
    ([Models]); query dictionaries ([QueryDict]); the router's view of a
    view set ([Routers]); query results and the server process
    ([Django]); one module per view set of the source, with the order
    serializer ([Serializers]) before the view set that uses it; a
    sample cinema ([Sample]); the predicates the properties are stated
    with ([Spec]); then the lemmas and theorems.

    Conventions.  A handler returns [inl e] when it raises [e].  The
    movie and order view sets build their query for every request and
    are functions of the database; the session view set holds a query
    set in a class attribute, so its handlers take and return the
    [Django.Process].  Text is modelled as strings of code points below
    256; the timestamp of a session is its local date and time. *)

From Stdlib Require Import ZArith List String Ascii Bool Lia Permutation.
Import ListNotations.

Local Open Scope string_scope.
Local Open Scope Z_scope.

(* ================================================================= *)
(** ** Python: exceptions, [str] methods, [int()] and [strptime]      *)
(* ================================================================= *)

Module Py.

(** The exceptions the handlers can end with.  [ValueError] is the
    built-in raised by [int()] and [datetime.strptime]; the next three
    belong to the REST framework, which turns them into 400, 404 and
    401 responses; [IntegrityError] is the database's.  A [ValueError]
    leaves the view uncaught. *)
Inductive exn : Type :=
| ValueError
| ValidationError
| Http404
| NotAuthenticated
| IntegrityError.

(** A computation that may raise: [inl e] is [raise e]. *)
Definition result (A : Type) : Type := (exn + A)%type.

Definition ret {A} (a : A) : result A := inr a.
Definition raise {A} (e : exn) : result A := inl e.
Definition bind {A B} (m : result A) (k : A -> result B) : result B :=
  match m with
  | inl e => inl e
  | inr a => k a
  end.

(** [[f(x) for x in xs]] where [f] may raise: the first exception
    wins, otherwise the images in order. *)
Fixpoint comprehension {A B} (f : A -> result B) (xs : list A)
  : result (list B) :=
  match xs with
  | [] => ret []
  | x :: xs' =>
      bind (f x) (fun y =>
      bind (comprehension f xs') (fun ys => ret (y :: ys)))
  end.

(** Strings are sequences of code points below 256. *)
Definition code (c : ascii) : Z := Z.of_N (N_of_ascii c).

(** [if s:] for an optional string: [None] and the empty string are
    falsy.  The
    result is the string the guarded block sees. *)
Definition truthy (p : option string) : option string :=
  match p with
  | Some EmptyString => None
  | Some s => Some s
  | None => None
  end.

(** [s.split(sep)] for a one-character separator: never empty. *)
Fixpoint split (sep : ascii) (s : string) : list string :=
  match s with
  | EmptyString => [EmptyString]
  | String c s' =>
      if Ascii.eqb c sep then EmptyString :: split sep s'
      else match split sep s' with
           | [] => [String c EmptyString]
           | w :: ws => String c w :: ws
           end
  end.

(** The blanks [int()] skips around a number: tab to carriage
    return, space, NEL and the no-break space. *)
Definition isspace (c : ascii) : bool :=
  let n := code c in
  ((9 <=? n) && (n <=? 13)) || (n =? 32) || (n =? 133) || (n =? 160).

Definition isdigit (c : ascii) : bool :=
  let n := code c in (48 <=? n) && (n <=? 57).

Definition digit_value (c : ascii) : Z := code c - 48.

Fixpoint lstrip (s : string) : string :=
  match s with
  | String c s' => if isspace c then lstrip s' else s
  | EmptyString => EmptyString
  end.

(** [rstrip] returns the empty string for an all-blank string. *)
Fixpoint rstrip (s : string) : string :=
  match s with
  | EmptyString => EmptyString
  | String c s' =>
      match rstrip s' with
      | EmptyString => if isspace c then EmptyString
                       else String c EmptyString
      | r => String c r
      end
  end.

(** The digit part of an integer literal: decimal digits, single
    underscores allowed between two digits only.  [after_digit] tells
    whether the previous character was a digit. *)
Fixpoint digits (acc : Z) (after_digit : bool) (s : string) : option Z :=
  match s with
  | EmptyString => if after_digit then Some acc else None
  | String c s' =>
      if isdigit c then digits (10 * acc + digit_value c) true s'
      else if Ascii.eqb c "_"%char then
             if after_digit then digits acc false s' else None
           else None
  end.

(** [sys.int_max_str_digits]: the most digits [int()] converts. *)
Definition int_max_str_digits : Z := 4300.

(** The digit characters of a text, leading zeros included,
    underscores not. *)
Fixpoint count_digits (s : string) : Z :=
  match s with
  | EmptyString => 0
  | String c s' => (if isdigit c then 1 else 0) + count_digits s'
  end.

(** The digit part within the limit on its length. *)
Definition within_limit (s : string) : option Z :=
  if count_digits s <=? int_max_str_digits then digits 0 false s else None.

(** [int(s)] in base ten: blanks around, an optional sign, digits,
    no more of them than the limit allows. *)
Definition parse_int (s : string) : option Z :=
  match rstrip (lstrip s) with
  | String "+" s' => within_limit s'
  | String "-" s' => option_map Z.opp (within_limit s')
  | s' => within_limit s'
  end.

Definition int (s : string) : result Z :=
  match parse_int s with
  | Some z => ret z
  | None => raise ValueError
  end.

(** ASCII case folding, what [icontains] compares under. *)
Definition lower_char (c : ascii) : ascii :=
  let n := code c in
  if (65 <=? n) && (n <=? 90) then ascii_of_N (N_of_ascii c + 32) else c.

Fixpoint lower (s : string) : string :=
  match s with
  | EmptyString => EmptyString
  | String c s' => String (lower_char c) (lower s')
  end.

(** [needle in hay]. *)
Fixpoint contains (needle hay : string) : bool :=
  String.prefix needle hay
  || match hay with
     | EmptyString => false
     | String _ hay' => contains needle hay'
     end.

(** *** Dates *)

Record date : Type := { year : Z; month : Z; day : Z }.

Record datetime : Type := { on : date; seconds : Z }.

Definition date_eqb (a b : date) : bool :=
  (year a =? year b) && (month a =? month b) && (day a =? day b).

Definition is_leap (y : Z) : bool :=
  (y mod 4 =? 0) && (negb (y mod 100 =? 0) || (y mod 400 =? 0)).

Definition days_in_month (y m : Z) : Z :=
  if m =? 2 then (if is_leap y then 29 else 28)
  else if (m =? 4) || (m =? 6) || (m =? 9) || (m =? 11) then 30
  else 31.

(** [datetime.date(y, m, d)]: the constructor's range checks. *)
Definition make_date (y m d : Z) : result date :=
  if (1 <=? y) && (y <=? 9999) && (1 <=? m) && (m <=? 12)
     && (1 <=? d) && (d <=? days_in_month y m)
  then ret {| year := y; month := m; day := d |}
  else raise ValueError.

(** The directive [%m] is the regular expression
    [1[0-2]|0[1-9]|[1-9]]; alternatives are tried in that order.  The
    result is the number and the rest of the input. *)
Definition directive_m (s : string) : option (Z * string) :=
  match s with
  | String "1" (String c r) =>
      if (48 <=? code c) && (code c <=? 50) then Some (10 + digit_value c, r)
      else Some (1, String c r)
  | String "0" (String c r) =>
      if (49 <=? code c) && (code c <=? 57) then Some (digit_value c, r)
      else None
  | String c r =>
      if (49 <=? code c) && (code c <=? 57) then Some (digit_value c, r)
      else None
  | EmptyString => None
  end.

(** The directive [%d] is [3[0-1]|[1-2]\d|0[1-9]|[1-9]| [1-9]]. *)
Definition directive_d (s : string) : option (Z * string) :=
  let one_to_nine c := (49 <=? code c) && (code c <=? 57) in
  match s with
  | String a (String b r) =>
      if (code a =? 51) && (48 <=? code b) && (code b <=? 49)
      then Some (30 + digit_value b, r)
      else if (49 <=? code a) && (code a <=? 50) && isdigit b
      then Some (10 * digit_value a + digit_value b, r)
      else if (code a =? 48) && one_to_nine b
      then Some (digit_value b, r)
      else if one_to_nine a then Some (digit_value a, String b r)
      else if (code a =? 32) && one_to_nine b
      then Some (digit_value b, r)
      else None
  | String a EmptyString =>
      if one_to_nine a then Some (digit_value a, EmptyString) else None
  | EmptyString => None
  end.

(** The directive [%Y] is four digits. *)
Definition directive_Y (s : string) : option (Z * string) :=
  match s with
  | String a (String b (String c (String d r))) =>
      if isdigit a && isdigit b && isdigit c && isdigit d
      then Some (1000 * digit_value a + 100 * digit_value b
                 + 10 * digit_value c + digit_value d, r)
      else None
  | _ => None
  end.

Definition literal (c : ascii) (s : string) : option string :=
  match s with
  | String c' r => if Ascii.eqb c c' then Some r else None
  | EmptyString => None
  end.

(** [datetime.strptime(s, "%Y-%m-%d").date()]: the text must match
    the format to its end and name a day that exists. *)
Definition strptime_Ymd (s : string) : result date :=
  match directive_Y s with
  | None => raise ValueError
  | Some (y, s1) =>
  match literal "-" s1 with
  | None => raise ValueError
  | Some s2 =>
  match directive_m s2 with
  | None => raise ValueError
  | Some (m, s3) =>
  match literal "-" s3 with
  | None => raise ValueError
  | Some s4 =>
  match directive_d s4 with
  | None => raise ValueError
  | Some (d, EmptyString) => make_date y m d
  | Some (_, String _ _) => raise ValueError
  end end end end end.

End Py.

Notation "x <- m ;; k" := (Py.bind m (fun x => k))
  (at level 61, m at next level, right associativity).

(* ================================================================= *)
(** ** Integers as clients write them                                 *)
(* ================================================================= *)

Module Decimal.

Definition digit_char (d : Z) : ascii := ascii_of_N (Z.to_N (48 + d)).

(** The decimal digits of a natural number, written in front of
    [tail]; [fuel] bounds the number of digits. *)
Fixpoint decimal_fuel (fuel : nat) (n : Z) (tail : string) : string :=
  let tail' := String (digit_char (n mod 10)) tail in
  match fuel with
  | O => tail'
  | S fuel' => if n <? 10 then tail' else decimal_fuel fuel' (n / 10) tail'
  end.

(** The decimal text of an integer: a minus sign for a negative
    number, then the digits without leading zeros. *)
Definition write (n : Z) : string :=
  if n <? 0 then String "-" (decimal_fuel (Z.to_nat (- n)) (- n) EmptyString)
  else decimal_fuel (Z.to_nat n) n EmptyString.

(** The integers [int()] converts whatever their text: those of no
    more digits than its limit. *)
Definition convertible (n : Z) : Prop :=
  Z.abs n < 10 ^ Py.int_max_str_digits.

End Decimal.

(* ================================================================= *)
(** ** The relational store                                           *)
(* ================================================================= *)

Module Models.

(** Modelled from the spec: [cinema/models.py] is not among the
    sources; the tables and columns are those of the data model, with
    integer primary keys and foreign keys held as the key of the row
    they point to.  The many-to-many relations of a movie are the
    link tables [movie_genres] and [movie_actors], rows
    [(movie id, genre id)] and [(movie id, actor id)]. *)

Record Movie : Type :=
  { movie_id : Z; title : string; description : string; duration : Z }.

Record CinemaHall : Type :=
  { hall_id : Z; hall_name : string; rows : Z; seats_in_row : Z }.

Record MovieSession : Type :=
  { session_id : Z; show_time : Py.datetime;
    movie : Z; cinema_hall : Z }.

Record Order : Type :=
  { order_id : Z; created_at : Z; user : Z }.

Record Ticket : Type :=
  { ticket_id : Z; movie_session : Z; order : Z; row : Z; seat : Z }.

Record Db : Type :=
  { movies : list Movie;
    movie_genres : list (Z * Z);
    movie_actors : list (Z * Z);
    cinema_halls : list CinemaHall;
    movie_sessions : list MovieSession;
    orders : list Order;
    tickets : list Ticket }.

Definition Movie_eq_dec (a b : Movie) : {a = b} + {a <> b}.
Proof.
  decide equality; try apply Z.eq_dec; apply string_dec.
Defined.

(** The place a ticket occupies. *)
Definition slot (t : Ticket) : Z * Z * Z := (movie_session t, row t, seat t).

Definition slot_eqb (a b : Z * Z * Z) : bool :=
  let '(s1, r1, c1) := a in
  let '(s2, r2, c2) := b in
  (s1 =? s2) && (r1 =? r2) && (c1 =? c2).

(** The next value of an auto-incremented key. *)
Definition next_id (ids : list Z) : Z := 1 + fold_right Z.max 0 ids.

End Models.

(* ================================================================= *)
(** ** [request.query_params]                                         *)
(* ================================================================= *)

Module QueryDict.

(** The pairs of the query string in the order they were written. *)
Definition t : Type := list (string * string).

Definition getlist (key : string) (q : t) : list string :=
  map snd (filter (fun kv => String.eqb (fst kv) key) q).

(** [q.get(key)]: the last value given for the key, [None] without
    one. *)
Definition get (key : string) (q : t) : option string :=
  match rev (getlist key q) with
  | [] => None
  | v :: _ => Some v
  end.

(** The query string reduced to one parameter. *)
Definition only (key : string) (q : t) : t :=
  filter (fun kv => String.eqb (fst kv) key) q.

(** The query string without one parameter. *)
Definition without (key : string) (q : t) : t :=
  filter (fun kv => negb (String.eqb (fst kv) key)) q.

End QueryDict.

(* ================================================================= *)
(** ** What a router exposes of a view set                            *)
(* ================================================================= *)

Module Routers.

Inductive mixin : Type :=
| CreateModelMixin
| ListModelMixin
| RetrieveModelMixin
| UpdateModelMixin
| DestroyModelMixin.

Inductive action : Type :=
| list_
| create
| retrieve
| update
| partial_update
| destroy
| extra (url_path : string).

Inductive http_method : Type := GET | POST | PUT | PATCH | DELETE.

(** The handlers a mixin brings. *)
Definition provides (m : mixin) : list action :=
  match m with
  | CreateModelMixin => [create]
  | ListModelMixin => [list_]
  | RetrieveModelMixin => [retrieve]
  | UpdateModelMixin => [update; partial_update]
  | DestroyModelMixin => [destroy]
  end.

(** [viewsets.ModelViewSet] is the generic view set with all five. *)
Definition ModelViewSet : list mixin :=
  [CreateModelMixin; RetrieveModelMixin; UpdateModelMixin;
   DestroyModelMixin; ListModelMixin].

(** A view set as a class statement gives it: its bases and the
    methods decorated with [@action]. *)
Record ViewSet : Type :=
  { bases : list mixin; actions : list string }.

(** The router binds a method to every handler the class has. *)
Definition exposed (v : ViewSet) : list action :=
  flat_map provides (bases v) ++ map extra (actions v).

Definition action_eqb (a b : action) : bool :=
  match a, b with
  | list_, list_ | create, create | retrieve, retrieve
  | update, update | partial_update, partial_update
  | destroy, destroy => true
  | extra p, extra q => String.eqb p q
  | _, _ => false
  end.

Definition exposes (v : ViewSet) (a : action) : bool :=
  existsb (action_eqb a) (exposed v).

(** Whether an action changes or removes a row that exists. *)
Definition modifies (a : action) : bool :=
  match a with
  | update | partial_update | destroy => true
  | _ => false
  end.

Definition method_of (a : action) : http_method :=
  match a with
  | list_ | retrieve => GET
  | create | extra _ => POST
  | update => PUT
  | partial_update => PATCH
  | destroy => DELETE
  end.

End Routers.

(* ================================================================= *)
(** ** Django: model instances with annotations, and the process      *)
(* ================================================================= *)

Module Django.

Import Models.

(** A [MovieSession] instance as the annotated query of the session
    view set yields it: the row, the hall loaded with it by
    [select_related], and the annotation. *)
Record SessionRow : Type :=
  { session : MovieSession;
    hall : CinemaHall;
    tickets_available : Z }.

(** [LEFT OUTER JOIN] on the tickets of a session: a session without
    tickets keeps one row, whose ticket columns are null. *)
Definition left_join_tickets (db : Db) (s : MovieSession)
  : list (option Ticket) :=
  match filter (fun t => movie_session t =? session_id s) (tickets db) with
  | [] => [None]
  | ts => map Some ts
  end.

(** [Count("tickets")] over the joined rows of one group: the rows
    whose ticket is not null. *)
Definition Count (joined : list (option Ticket)) : Z :=
  Z.of_nat (List.length (filter (fun o => match o with Some _ => true
                                                  | None => false end) joined)).

(** The server process: the database, and the one piece of state the
    view classes keep between requests, the rows cached inside the
    [QuerySet] object bound to [MovieSessionViewSet.queryset].  A
    [QuerySet] fetches its rows the first time it is iterated and
    answers from them afterwards. *)
Record Process : Type :=
  { db : Db;
    _result_cache : option (list SessionRow) }.

Definition with_db (d : Db) (p : Process) : Process :=
  {| db := d; _result_cache := _result_cache p |}.

(** A process that has just started. *)
Definition boot (d : Db) : Process :=
  {| db := d; _result_cache := None |}.

End Django.

(* ================================================================= *)
(** ** [get_object]: looking one row up                               *)
(* ================================================================= *)

Module Shortcuts.

(** What a detail route can end with besides the exceptions of [Py]:
    [QuerySet.get] raises [MultipleObjectsReturned] when more than one
    row answers to the key. *)
Inductive exn : Type :=
| Raised (e : Py.exn)
| MultipleObjectsReturned.

(** [get_object_or_404(queryset, pk=pk)] on the rows that have the
    key: none is a 404, one is the object. *)
Definition get_object_or_404 {A} (found : list A) : exn + A :=
  match found with
  | [] => inl (Raised Py.Http404)
  | [a] => inr a
  | _ :: _ :: _ => inl MultipleObjectsReturned
  end.

(** The two answers of a handler that builds its [Response] itself. *)
Inductive Response (A E : Type) : Type :=
| HTTP_200_OK (data : A)
| HTTP_400_BAD_REQUEST (errors : E).

Arguments HTTP_200_OK {A E} data.
Arguments HTTP_400_BAD_REQUEST {A E} errors.

End Shortcuts.

(* ================================================================= *)
(** ** [MovieViewSet]                                                 *)
(* ================================================================= *)

Module MovieViewSet.

Import Models.

Definition viewset : Routers.ViewSet :=
  {| Routers.bases := [Routers.ListModelMixin; Routers.CreateModelMixin;
                       Routers.RetrieveModelMixin];
     Routers.actions := ["upload-image"] |}.

(** Converts a list of string IDs to a list of integers. *)
Definition _params_to_ints (qs : string) : Py.result (list Z) :=
  Py.comprehension Py.int (Py.split "," qs).

(** [filter(title__icontains=t)]: a condition on the row itself. *)
Definition title__icontains (t : string) (m : Movie) : bool :=
  Py.contains (Py.lower t) (Py.lower (title m)).

(** [filter(<relation>__id__in=ids)]: an inner join with the link
    table of the relation, restricted to the listed ids.  A movie
    comes out once for every link that matches.  The query has no
    [order_by]: the order of the list stands for whatever order the
    database returns the rows in. *)
Definition id__in (links : list (Z * Z)) (ids : list Z)
           (queryset : list Movie) : list Movie :=
  flat_map
    (fun m =>
       map (fun _ => m)
           (filter (fun l => (fst l =? movie_id m)
                             && existsb (Z.eqb (snd l)) ids) links))
    queryset.

(** [distinct()]: equal rows are returned once. *)
Definition distinct (queryset : list Movie) : list Movie :=
  nodup Movie_eq_dec queryset.

(** Retrieve the movies with filters.  The query set is built anew
    for each request ([distinct] returns a fresh object), so the rows
    are those of the database at the time of the request. *)
Definition get_queryset (query_params : QueryDict.t) (db : Db)
  : Py.result (list Movie) :=
  let title := QueryDict.get "title" query_params in
  let genres := QueryDict.get "genres" query_params in
  let actors := QueryDict.get "actors" query_params in
  let queryset := movies db in
  let queryset :=
    match Py.truthy title with
    | Some title => filter (title__icontains title) queryset
    | None => queryset
    end in
  queryset <-
    match Py.truthy genres with
    | Some genres =>
        genres_ids <- _params_to_ints genres ;;
        Py.ret (id__in (movie_genres db) genres_ids queryset)
    | None => Py.ret queryset
    end ;;
  queryset <-
    match Py.truthy actors with
    | Some actors =>
        actors_ids <- _params_to_ints actors ;;
        Py.ret (id__in (movie_actors db) actors_ids queryset)
    | None => Py.ret queryset
    end ;;
  Py.ret (distinct queryset).

(** [self.get_object()]: the row of [get_queryset] with the key of the
    URL.  The filters of the query string apply here as they do to the
    list. *)
Definition get_object (query_params : QueryDict.t) (pk : Z) (db : Db)
  : Shortcuts.exn + Movie :=
  match get_queryset query_params db with
  | inl e => inl (Shortcuts.Raised e)
  | inr queryset =>
      Shortcuts.get_object_or_404
        (filter (fun m => movie_id m =? pk) queryset)
  end.

(** Get a specific movie by its ID. *)
Definition retrieve (query_params : QueryDict.t) (pk : Z) (db : Db)
  : Shortcuts.exn + Movie :=
  get_object query_params pk db.

Section UploadImage.

(** [MovieImageSerializer] is not among the sources: the body of the
    request, the errors and the image it validates, and what saving
    does to the database, are left open. *)
Variables Upload Errors Image : Type.
Variable is_valid : Movie -> Upload -> Errors + Image.
Variable save : Movie -> Image -> Db -> Db.

(** Endpoint for uploading image to specific movie. *)
Definition upload_image (query_params : QueryDict.t) (pk : Z)
           (data : Upload) (db : Db)
  : (Shortcuts.exn + Shortcuts.Response (Movie * Image) Errors) * Db :=
  match get_object query_params pk db with
  | inl e => (inl e, db)
  | inr movie =>
      match is_valid movie data with
      | inr image =>
          (inr (Shortcuts.HTTP_200_OK (movie, image)), save movie image db)
      | inl errors => (inr (Shortcuts.HTTP_400_BAD_REQUEST errors), db)
      end
  end.

End UploadImage.

End MovieViewSet.

(* ================================================================= *)
(** ** [MovieSessionViewSet]                                          *)
(* ================================================================= *)

Module MovieSessionViewSet.

Import Models Django.

Definition viewset : Routers.ViewSet :=
  {| Routers.bases := Routers.ModelViewSet; Routers.actions := [] |}.

(** The conditions [get_queryset] adds. *)
Inductive lookup : Type :=
| show_time__date (d : Py.date)
| movie_id (n : Z).

Definition holds (r : SessionRow) (l : lookup) : bool :=
  match l with
  | show_time__date d => Py.date_eqb (Py.on (show_time (session r))) d
  | movie_id n => movie (session r) =? n
  end.

(** The query of the class attribute, run on a database: sessions
    joined with their hall, grouped, with
    [tickets_available = F("cinema_hall__rows")
     * F("cinema_hall__seats_in_row") - Count("tickets")].  The query
    has no [order_by]: the order of the list stands for whatever order
    the database returns the rows in. *)
Definition annotated (d : Db) : list SessionRow :=
  flat_map
    (fun s =>
       map (fun h =>
              {| session := s;
                 hall := h;
                 tickets_available :=
                   rows h * seats_in_row h
                   - Count (left_join_tickets d s) |})
           (filter (fun h => hall_id h =? cinema_hall s) (cinema_halls d)))
    (movie_sessions d).

(** The same query with conditions added by [filter]. *)
Definition execute (d : Db) (where_ : list lookup) : list SessionRow :=
  filter (fun r => forallb (holds r) where_) (annotated d).

(** The [QuerySet] objects a request can hold: the one object bound
    to the class attribute, shared by all requests of the process, or a
    clone made by [filter], which carries the added conditions and
    starts without cached rows.  (The framework's own [get_queryset]
    returns [self.queryset.all()], a clone, for that reason; the
    override below reads the attribute itself.) *)
Inductive QuerySet : Type :=
| queryset
| clone (where_ : list lookup).

Definition filter_ (l : lookup) (q : QuerySet) : QuerySet :=
  match q with
  | queryset => clone [l]
  | clone ws => clone (ws ++ [l])
  end.

(** Iterating a query set, as the list serializer does.  A clone is
    private to the request and is run on the database.  The shared
    object is run once and keeps its rows. *)
Definition iterate (q : QuerySet) (p : Process)
  : list SessionRow * Process :=
  match q with
  | clone ws => (execute (db p) ws, p)
  | queryset =>
      match _result_cache p with
      | Some cached => (cached, p)
      | None =>
          let fetched := execute (db p) [] in
          (fetched, {| db := db p; _result_cache := Some fetched |})
      end
  end.

Definition get_queryset (query_params : QueryDict.t)
  : Py.result QuerySet :=
  let date := QueryDict.get "date" query_params in
  let movie_id_str := QueryDict.get "movie" query_params in
  let queryset := queryset in
  queryset <-
    match Py.truthy date with
    | Some date =>
        date <- Py.strptime_Ymd date ;;
        Py.ret (filter_ (show_time__date date) queryset)
    | None => Py.ret queryset
    end ;;
  queryset <-
    match Py.truthy movie_id_str with
    | Some movie_id_str =>
        n <- Py.int movie_id_str ;;
        Py.ret (filter_ (movie_id n) queryset)
    | None => Py.ret queryset
    end ;;
  Py.ret queryset.

(** [retrieve]: [get_object] looks the key up with
    [get_queryset().get(pk=...)], a clone. *)
Definition retrieve (query_params : QueryDict.t) (pk : Z) (p : Process)
  : Py.result SessionRow * Process :=
  match get_queryset query_params with
  | inl e => (inl e, p)
  | inr q =>
      let ws := match q with queryset => [] | clone ws => ws end in
      match filter (fun r => session_id (session r) =? pk)
                   (execute (db p) ws) with
      | r :: _ => (inr r, p)
      | [] => (inl Py.Http404, p)
      end
  end.

(** Modelled from the spec: [MovieSessionSerializer] is not among the
    sources; a new session must name a movie and a hall that exist and
    receives the next key.  (The permission class lets administrators
    only come this far.) *)
Definition create (show : Py.datetime) (movie_pk hall_pk : Z)
           (p : Process) : Py.result MovieSession * Process :=
  if existsb (fun m => Models.movie_id m =? movie_pk) (movies (db p))
     && existsb (fun h => hall_id h =? hall_pk) (cinema_halls (db p))
  then
    let s := {| session_id := next_id (map session_id
                                           (movie_sessions (db p)));
                show_time := show;
                movie := movie_pk;
                cinema_hall := hall_pk |} in
    (inr s,
     with_db {| movies := movies (db p);
                movie_genres := movie_genres (db p);
                movie_actors := movie_actors (db p);
                cinema_halls := cinema_halls (db p);
                movie_sessions := movie_sessions (db p) ++ [s];
                orders := orders (db p);
                tickets := tickets (db p) |} p)
  else (inl Py.ValidationError, p).

(** Get list of all movie sessions, optionally filtered by date or
    movie ID.  [ListModelMixin.list] hands the result of [get_queryset]
    to the list serializer, which iterates it; this resource has no
    paginator (of the resources only the orders are paginated). *)
Definition list (query_params : QueryDict.t) (p : Process)
  : Py.result (Datatypes.list SessionRow) * Process :=
  match get_queryset query_params with
  | inl e => (inl e, p)
  | inr q => let (rows, p') := iterate q p in (inr rows, p')
  end.

End MovieSessionViewSet.

(* ================================================================= *)
(** ** The order serializer                                           *)
(* ================================================================= *)

Module Serializers.

Import Models.

(** One requested ticket of a payload. *)
Record TicketData : Type :=
  { for_session : Z; at_row : Z; at_seat : Z }.

(** The body of a [POST] to the orders endpoint.  Besides the tickets
    the client may send any key it likes; [claimed_user] is what it
    sent under [user], if anything. *)
Record OrderData : Type :=
  { claimed_user : option Z; tickets_data : list TicketData }.

(** [serializer.validated_data], a dictionary with the keys [tickets]
    and possibly [user]. *)
Record validated_data : Type :=
  { user_key : option Z; tickets_key : list TicketData }.

Definition place (t : TicketData) : Z * Z * Z :=
  (for_session t, at_row t, at_seat t).

Definition taken (d : Db) (t : TicketData) : bool :=
  existsb (fun t' => slot_eqb (slot t') (place t)) (tickets d).

(** The hall a requested ticket is for. *)
Definition hall_of (d : Db) (t : TicketData) : option CinemaHall :=
  match find (fun s => session_id s =? for_session t) (movie_sessions d) with
  | None => None
  | Some s => find (fun h => hall_id h =? cinema_hall s) (cinema_halls d)
  end.

Definition within (h : CinemaHall) (t : TicketData) : bool :=
  (1 <=? at_row t) && (at_row t <=? rows h)
  && (1 <=? at_seat t) && (at_seat t <=? seats_in_row h).

(** Modelled from the spec: [cinema/serializers.py] and the model
    validation are not among the sources.  A requested ticket is valid
    when its session exists, its row and seat lie within the hall of
    that session (rows and seats are counted from one) and no ticket
    of the database occupies its place. *)
Definition validate_ticket (d : Db) (t : TicketData) : Py.result TicketData :=
  match hall_of d t with
  | None => Py.raise Py.ValidationError
  | Some h =>
      if within h t && negb (taken d t) then Py.ret t
      else Py.raise Py.ValidationError
  end.

(** Modelled from the spec: [serializer.is_valid(raise_exception=True)]
    validates every ticket.  What the client sent under [user] is let
    through to the validated data, the most a serializer could do
    with it. *)
Definition is_valid (d : Db) (data : OrderData) : Py.result validated_data :=
  ts <- Py.comprehension (validate_ticket d) (tickets_data data) ;;
  Py.ret {| user_key := claimed_user data; tickets_key := ts |}.

Definition add_order (o : Order) (d : Db) : Db :=
  {| movies := movies d;
     movie_genres := movie_genres d;
     movie_actors := movie_actors d;
     cinema_halls := cinema_halls d;
     movie_sessions := movie_sessions d;
     orders := orders d ++ [o];
     tickets := tickets d |}.

Definition add_ticket (t : Ticket) (d : Db) : Db :=
  {| movies := movies d;
     movie_genres := movie_genres d;
     movie_actors := movie_actors d;
     cinema_halls := cinema_halls d;
     movie_sessions := movie_sessions d;
     orders := orders d;
     tickets := tickets d ++ [t] |}.

(** Modelled from the spec: inserting the tickets of an order one
    after the other, each checked against the tickets present at that
    moment, those of the same order included. *)
Fixpoint insert_tickets (order_pk : Z) (ts : list TicketData) (d : Db)
  : Py.result Db :=
  match ts with
  | [] => Py.ret d
  | t :: ts' =>
      if taken d t then Py.raise Py.ValidationError
      else
        insert_tickets order_pk ts'
          (add_ticket {| ticket_id := next_id (map ticket_id (tickets d));
                         movie_session := for_session t;
                         order := order_pk;
                         row := at_row t;
                         seat := at_seat t |} d)
  end.

(** Modelled from the spec: [OrderSerializer.create], one
    transaction.  The order row takes its owner from the validated
    data; an exception leaves the caller with the database it had. *)
Definition create (now : Z) (v : validated_data) (d : Db)
  : Py.result (Order * Db) :=
  match user_key v with
  | None => Py.raise Py.IntegrityError
  | Some u =>
      let o := {| order_id := next_id (map order_id (orders d));
                  created_at := now;
                  user := u |} in
      d' <- insert_tickets (order_id o) (tickets_key v) (add_order o d) ;;
      Py.ret (o, d')
  end.

(** [serializer.save] with keyword arguments: they are merged over
    the validated data, a keyword replacing the entry with its name,
    and the result goes to [create].  The only keyword used is
    [user]. *)
Definition save (user_kwarg : Z) (now : Z) (v : validated_data) (d : Db)
  : Py.result (Order * Db) :=
  create now {| user_key := Some user_kwarg;
                tickets_key := tickets_key v |} d.

End Serializers.

(* ================================================================= *)
(** ** [OrderPagination] and [OrderViewSet]                           *)
(* ================================================================= *)

Module OrderPagination.

Definition page_size : nat := 10.
Definition max_page_size : nat := 100.

Definition num_pages (count : nat) : Z :=
  match count with
  | O => 1
  | _ => (Z.of_nat count + Z.of_nat page_size - 1) / Z.of_nat page_size
  end.

(** [paginate_queryset]: the page named by the [page] parameter, the
    first one without it; a page that does not exist is a 404. *)
Definition paginate_queryset {A} (query_params : QueryDict.t)
           (queryset : list A) : Py.result (list A) :=
  let last_page := num_pages (List.length queryset) in
  number <-
    match QueryDict.get "page" query_params with
    | None => Py.ret 1
    | Some s =>
        if String.eqb s "last" then Py.ret last_page
        else match Py.parse_int s with
             | Some n => Py.ret n
             | None => Py.raise Py.Http404
             end
    end ;;
  if (number <? 1) || (last_page <? number) then Py.raise Py.Http404
  else Py.ret (firstn page_size
                 (skipn (Z.to_nat (number - 1) * page_size) queryset)).

End OrderPagination.

Module OrderViewSet.

Import Models Django.

Definition viewset : Routers.ViewSet :=
  {| Routers.bases := [Routers.ListModelMixin; Routers.CreateModelMixin];
     Routers.actions := [] |}.

(** A request as the view sees it: who the token authenticator says
    is calling ([None] for an anonymous caller), the query string, the
    body, and the time. *)
Record Request : Type :=
  { user : option Z;
    query_params : QueryDict.t;
    data : Serializers.OrderData;
    now : Z }.

(** [Order.objects.filter(user=self.request.user)].  The view adds no
    [order_by]: the order of the list stands for whatever order the
    database returns the rows in. *)
Definition get_queryset (request_user : Z) (d : Db) : list Order :=
  filter (fun o => Models.user o =? request_user) (orders d).

(** [serializer.save(user=self.request.user)]. *)
Definition perform_create (request_user : Z) (time : Z)
           (serializer : Serializers.validated_data) (d : Db)
  : Py.result (Order * Db) :=
  Serializers.save request_user time serializer d.

(** Create a new order for the current user.  [IsAuthenticated]
    comes first; then the steps of [CreateModelMixin.create]. *)
Definition create (request : Request) (p : Process)
  : Py.result Order * Process :=
  match user request with
  | None => (inl Py.NotAuthenticated, p)
  | Some u =>
      match Serializers.is_valid (db p) (data request) with
      | inl e => (inl e, p)
      | inr serializer =>
          match perform_create u (now request) serializer (db p) with
          | inl e => (inl e, p)
          | inr (o, d') => (inr o, with_db d' p)
          end
      end
  end.

(** Get list of all orders for the current user. *)
Definition list (request : Request) (p : Process)
  : Py.result (Datatypes.list Order) :=
  match user request with
  | None => Py.raise Py.NotAuthenticated
  | Some u =>
      OrderPagination.paginate_queryset (query_params request)
        (get_queryset u (db p))
  end.

End OrderViewSet.

(* ================================================================= *)
(** ** The catalogue view sets                                        *)
(* ================================================================= *)

Module GenreViewSet.
Definition viewset : Routers.ViewSet :=
  {| Routers.bases := [Routers.CreateModelMixin; Routers.ListModelMixin];
     Routers.actions := [] |}.
End GenreViewSet.

Module ActorViewSet.
Definition viewset : Routers.ViewSet :=
  {| Routers.bases := [Routers.CreateModelMixin; Routers.ListModelMixin];
     Routers.actions := [] |}.
End ActorViewSet.

Module CinemaHallViewSet.
Definition viewset : Routers.ViewSet :=
  {| Routers.bases := [Routers.CreateModelMixin; Routers.ListModelMixin];
     Routers.actions := [] |}.
End CinemaHallViewSet.

(** The view sets of the module, by resource. *)
Definition resources : list (string * Routers.ViewSet) :=
  [ ("genres", GenreViewSet.viewset);
    ("actors", ActorViewSet.viewset);
    ("cinema-halls", CinemaHallViewSet.viewset);
    ("movies", MovieViewSet.viewset);
    ("movie-sessions", MovieSessionViewSet.viewset);
    ("orders", OrderViewSet.viewset) ].

(* ================================================================= *)
(** ** A small cinema                                                 *)
(* ================================================================= *)

Module Sample.

Import Models.

Definition day (d : Z) : Py.datetime :=
  {| Py.on := {| Py.year := 2024; Py.month := 10; Py.day := d |};
     Py.seconds := 68400 |}.

(** One hall of five rows of ten seats; three movies; two sessions,
    the first with three tickets sold; two customers, 7 and 8. *)
Definition cinema : Db :=
  {| movies :=
       [ {| movie_id := 1; title := "Inception";
            description := "Dreams"; duration := 148 |};
         {| movie_id := 2; title := "Titanic";
            description := "A ship"; duration := 195 |};
         {| movie_id := 3; title := "Interstellar";
            description := "Space"; duration := 169 |} ];
     movie_genres := [(1, 1); (1, 2); (2, 2); (3, 1); (3, 3)];
     movie_actors := [(1, 3); (2, 3); (2, 4); (3, 5)];
     cinema_halls :=
       [ {| hall_id := 1; hall_name := "Blue"; rows := 5;
            seats_in_row := 10 |} ];
     movie_sessions :=
       [ {| session_id := 1; show_time := day 5; movie := 1;
            cinema_hall := 1 |};
         {| session_id := 2; show_time := day 11; movie := 2;
            cinema_hall := 1 |} ];
     orders :=
       [ {| order_id := 1; created_at := 100; user := 7 |};
         {| order_id := 2; created_at := 200; user := 8 |} ];
     tickets :=
       [ {| ticket_id := 1; movie_session := 1; order := 1;
            row := 1; seat := 1 |};
         {| ticket_id := 2; movie_session := 1; order := 1;
            row := 1; seat := 2 |};
         {| ticket_id := 3; movie_session := 1; order := 2;
            row := 2; seat := 5 |} ] |}.

Definition server : Django.Process := Django.boot cinema.

(** An order request by [who] for the given seats of session 1. *)
Definition order_by (who : Z) (claims : option Z) (seats : list (Z * Z))
  : OrderViewSet.Request :=
  {| OrderViewSet.user := Some who;
     OrderViewSet.query_params := [];
     OrderViewSet.data :=
       {| Serializers.claimed_user := claims;
          Serializers.tickets_data :=
            map (fun rs => {| Serializers.for_session := 1;
                              Serializers.at_row := fst rs;
                              Serializers.at_seat := snd rs |}) seats |};
     OrderViewSet.now := 300 |}.

(** What a session list shows: session key and seats left. *)
Definition shown (r : Py.result (list Django.SessionRow))
  : Py.result (list (Z * Z)) :=
  rows <- r ;;
  Py.ret (map (fun x => (session_id (Django.session x),
                         Django.tickets_available x)) rows).

(** The process after one unfiltered session list ... *)
Definition listed_once : Django.Process :=
  snd (MovieSessionViewSet.list [] server).

(** ... then after customer 7 has bought row 3, seat 3 of session 1; *)
Definition then_ordered : Django.Process :=
  snd (OrderViewSet.create (order_by 7 None [(3, 3)]) listed_once).

(** ... or after a third session has been scheduled instead. *)
Definition then_scheduled : Django.Process :=
  snd (MovieSessionViewSet.create (day 12) 3 1 listed_once).

End Sample.

(* ================================================================= *)
(** ** The vocabulary of the specification                            *)
(* ================================================================= *)

Module Spec.

Import Models.

(** A parameter that is given and not empty. *)
Definition given (p : option string) (s : string) : Prop :=
  p = Some s /\ s <> EmptyString.

(** A parameter that is given as the empty string, or not given. *)
Definition blank (p : option string) : Prop :=
  p = Some EmptyString \/ p = None.

(** A list parameter one of whose comma-separated tokens is not an
    integer. *)
Definition malformed_ids (p : option string) : Prop :=
  exists s tok, given p s /\ In tok (Py.split "," s)
                /\ Py.parse_int tok = None.

(** A list parameter that reads as the ids [ids], or no parameter. *)
Definition reads_as (p : option string) (ids : option (list Z)) : Prop :=
  match ids with
  | Some l => exists s, given p s
                        /\ MovieViewSet._params_to_ints s = inr l
  | None => blank p
  end.

(** An id as a client writes it: one or more decimal digits. *)
Fixpoint all_digits (s : string) : bool :=
  match s with
  | EmptyString => true
  | String c s' => Py.isdigit c && all_digits s'
  end.

Definition numeral (s : string) : Prop :=
  s <> EmptyString /\ all_digits s = true.

(** The number a numeral denotes, most significant digit first. *)
Fixpoint value_from (acc : Z) (s : string) : Z :=
  match s with
  | EmptyString => acc
  | String c s' => value_from (10 * acc + Py.digit_value c) s'
  end.

Definition value (s : string) : Z := value_from 0 s.

(** An integer parameter that is not an integer. *)
Definition malformed_int (p : option string) : Prop :=
  exists s, given p s /\ Py.parse_int s = None.

(** The title filter: a case-insensitive substring. *)
Definition title_matches (p : option string) (m : Movie) : Prop :=
  forall t, given p t ->
            Py.contains (Py.lower t) (Py.lower (title m)) = true.

(** A filter on a relation: the movie is linked to one of the ids. *)
Definition any_of (links : list (Z * Z)) (ids : option (list Z))
           (m : Movie) : Prop :=
  forall l, ids = Some l -> exists i, In i l /\ In (movie_id m, i) links.

(** Hall capacity. *)
Definition capacity (h : CinemaHall) : Z := rows h * seats_in_row h.

(** The tickets persisted for a session. *)
Definition sold (d : Db) (s : MovieSession) : Z :=
  Z.of_nat (List.length
              (filter (fun t => movie_session t =? session_id s)
                      (tickets d))).

(** A requested seat that exists in the hall of its session. *)
Definition in_bounds (d : Db) (t : Serializers.TicketData) : Prop :=
  exists h, Serializers.hall_of d t = Some h
            /\ 1 <= Serializers.at_row t <= rows h
            /\ 1 <= Serializers.at_seat t <= seats_in_row h.

(** A requested seat that a ticket of the database has. *)
Definition occupied (d : Db) (t : Serializers.TicketData) : Prop :=
  exists t', In t' (tickets d) /\ slot t' = Serializers.place t.

(** No two tickets of the database in one place. *)
Definition seats_unique (d : Db) : Prop := NoDup (map slot (tickets d)).

(** What a condition of the session query means for a row. *)
Definition meets (r : Django.SessionRow) (l : MovieSessionViewSet.lookup)
  : Prop :=
  match l with
  | MovieSessionViewSet.show_time__date day =>
      Py.on (Models.show_time (Django.session r)) = day
  | MovieSessionViewSet.movie_id n => Models.movie (Django.session r) = n
  end.

(** The text of a date as the interface documents it: four digits, a
    dash, two digits, a dash, two digits, naming a day that exists. *)
Definition YYYY_MM_DD (s : string) : option Py.date :=
  match s with
  | String y1 (String y2 (String y3 (String y4 (String "-"
     (String m1 (String m2 (String "-"
     (String d1 (String d2 EmptyString))))))))) =>
      if forallb Py.isdigit [y1; y2; y3; y4; m1; m2; d1; d2]
      then
        match Py.make_date
                (1000 * Py.digit_value y1 + 100 * Py.digit_value y2
                 + 10 * Py.digit_value y3 + Py.digit_value y4)
                (10 * Py.digit_value m1 + Py.digit_value m2)
                (10 * Py.digit_value d1 + Py.digit_value d2) with
        | inr d => Some d
        | inl _ => None
        end
      else None
  | _ => None
  end.

(** A [date] parameter that reads as a day, or no parameter. *)
Definition reads_as_date (p : option string) (day : option Py.date) : Prop :=
  match day with
  | Some d => exists s, given p s /\ Py.strptime_Ymd s = inr d
  | None => blank p
  end.

(** A [movie] parameter that reads as a key, or no parameter. *)
Definition reads_as_int (p : option string) (key : option Z) : Prop :=
  match key with
  | Some n => exists s, given p s /\ Py.parse_int s = Some n
  | None => blank p
  end.

(** A session that is on the day asked for, if any, and shows the
    movie asked for, if any. *)
Definition wanted (day : option Py.date) (key : option Z)
           (s : MovieSession) : Prop :=
  (forall d, day = Some d -> Py.on (show_time s) = d)
  /\ (forall n, key = Some n -> movie s = n).

(** Every session has its hall, and halls have distinct keys. *)
Definition halls_consistent (d : Db) : Prop :=
  NoDup (map hall_id (cinema_halls d))
  /\ forall s, In s (movie_sessions d) ->
               exists h, In h (cinema_halls d) /\ hall_id h = cinema_hall s.

(** The tickets of a session lie within a hall. *)
Definition seated_in (d : Db) (s : MovieSession) (h : CinemaHall) : Prop :=
  forall t, In t (tickets d) -> movie_session t = session_id s ->
            1 <= row t <= rows h /\ 1 <= seat t <= seats_in_row h.

(** Two id lists with the same members, or no list twice. *)
Definition same_ids (a b : option (list Z)) : Prop :=
  match a, b with
  | Some l, Some l' => forall i, In i l <-> In i l'
  | None, None => True
  | _, _ => False
  end.

(** Two [title] parameters that differ in the case of ASCII letters at
    most, or are both missing or empty. *)
Definition same_title (p p' : option string) : Prop :=
  (blank p /\ blank p')
  \/ exists t t', given p t /\ given p' t' /\ Py.lower t = Py.lower t'.

(** Two characters that are the same up to the case of an ASCII
    letter: capital letters have the codes 65 to 90, and the small
    letter of a capital has its code plus 32. *)
Definition same_letter (a b : ascii) : Prop :=
  Py.code a = Py.code b
  \/ (65 <= Py.code a <= 90 /\ Py.code b = Py.code a + 32)
  \/ (65 <= Py.code b <= 90 /\ Py.code a = Py.code b + 32).

(** Two texts of one length whose characters are pairwise the same
    letters. *)
Fixpoint same_text (s t : string) : Prop :=
  match s, t with
  | EmptyString, EmptyString => True
  | String a s', String b t' => same_letter a b /\ same_text s' t'
  | _, _ => False
  end.

(** [needle] occurs in [hay] regardless of case: [hay] has a piece
    that is the same text as [needle]. *)
Definition occurs_in (needle hay : string) : Prop :=
  exists before piece after,
    hay = before ++ piece ++ after /\ same_text needle piece.

(** The title filter by that notion. *)
Definition title_has (p : option string) (m : Movie) : Prop :=
  forall t, given p t -> occurs_in t (title m).

(** A list parameter that is the comma-separated decimal text of the
    ids [ids], a non-empty list of integers [int()] converts; or no
    parameter. *)
Definition written (p : option string) (ids : option (list Z)) : Prop :=
  match ids with
  | Some l => l <> [] /\ Forall Decimal.convertible l
              /\ p = Some (String.concat "," (map Decimal.write l))
  | None => blank p
  end.

(** The number of orders of a table that belong to a user. *)
Fixpoint owned (u : Z) (os : list Order) : nat :=
  match os with
  | [] => O
  | o :: os' => if user o =? u then S (owned u os') else owned u os'
  end.

(** The request with the query string [?page=n]. *)
Definition on_page (request : OrderViewSet.Request) (n : Z)
  : OrderViewSet.Request :=
  {| OrderViewSet.user := OrderViewSet.user request;
     OrderViewSet.query_params := [("page", Decimal.write n)];
     OrderViewSet.data := OrderViewSet.data request;
     OrderViewSet.now := OrderViewSet.now request |}.

(** The numbers 1, 2, ... up to [count]. *)
Definition upto (count : Z) : list Z :=
  map (fun i => Z.of_nat i + 1) (seq 0 (Z.to_nat count)).

End Spec.

(* ================================================================= *)
(** * Properties                                                      *)
(* ================================================================= *)

(** ** Query dictionaries *)

Lemma getlist_without_same (key : string) (q : QueryDict.t) :
  QueryDict.getlist key (QueryDict.without key q) = [].
Proof.
  unfold QueryDict.getlist, QueryDict.without.
  induction q as [|[k v] q IH]; simpl; auto.
  destruct (String.eqb k key) eqn:E; simpl; auto.
  now rewrite E.
Qed.

Lemma getlist_without_other (key key' : string) (q : QueryDict.t) :
  key' <> key ->
  QueryDict.getlist key' (QueryDict.without key q) = QueryDict.getlist key' q.
Proof.
  intros Hne. unfold QueryDict.getlist, QueryDict.without.
  induction q as [|[k v] q IH]; simpl; auto.
  destruct (String.eqb k key) eqn:E; simpl.
  - apply String.eqb_eq in E. subst k.
    destruct (String.eqb key key') eqn:E'; auto.
    apply String.eqb_eq in E'. congruence.
  - destruct (String.eqb k key'); simpl; now rewrite IH.
Qed.

Lemma get_without_same (key : string) (q : QueryDict.t) :
  QueryDict.get key (QueryDict.without key q) = None.
Proof. unfold QueryDict.get. now rewrite getlist_without_same. Qed.

Lemma get_without_other (key key' : string) (q : QueryDict.t) :
  key' <> key ->
  QueryDict.get key' (QueryDict.without key q) = QueryDict.get key' q.
Proof.
  intros H. unfold QueryDict.get. now rewrite getlist_without_other.
Qed.

Lemma getlist_only_same (key : string) (q : QueryDict.t) :
  QueryDict.getlist key (QueryDict.only key q) = QueryDict.getlist key q.
Proof.
  unfold QueryDict.getlist, QueryDict.only.
  induction q as [|[k v] q IH]; simpl; auto.
  destruct (String.eqb k key) eqn:E; simpl; auto.
  rewrite E. simpl. now rewrite IH.
Qed.

Lemma getlist_only_other (key key' : string) (q : QueryDict.t) :
  key' <> key ->
  QueryDict.getlist key' (QueryDict.only key q) = [].
Proof.
  intros Hne. unfold QueryDict.getlist, QueryDict.only.
  induction q as [|[k v] q IH]; simpl; auto.
  destruct (String.eqb k key) eqn:E; simpl; auto.
  apply String.eqb_eq in E. subst k.
  destruct (String.eqb key key') eqn:E'; auto.
  apply String.eqb_eq in E'. congruence.
Qed.

Lemma get_only_same (key : string) (q : QueryDict.t) :
  QueryDict.get key (QueryDict.only key q) = QueryDict.get key q.
Proof. unfold QueryDict.get. now rewrite getlist_only_same. Qed.

Lemma get_only_other (key key' : string) (q : QueryDict.t) :
  key' <> key -> QueryDict.get key' (QueryDict.only key q) = None.
Proof.
  intros H. unfold QueryDict.get. now rewrite getlist_only_other.
Qed.

(** ** Truthiness *)

Lemma truthy_blank (p : option string) :
  Spec.blank p -> Py.truthy p = None.
Proof. now intros [-> | ->]. Qed.

Lemma truthy_given (p : option string) (s : string) :
  Spec.given p s -> Py.truthy p = Some s.
Proof. intros [-> H]. destruct s; [congruence | reflexivity]. Qed.

Lemma truthy_Some (p : option string) (s : string) :
  Py.truthy p = Some s -> Spec.given p s.
Proof.
  destruct p as [[|c r]|]; simpl; try discriminate.
  intros [= <-]. split; [reflexivity | discriminate].
Qed.

Lemma truthy_None (p : option string) :
  Py.truthy p = None -> Spec.blank p.
Proof.
  destruct p as [[|c r]|]; simpl; try discriminate; intros _;
    [now left | now right].
Qed.

(** ** Parsing parameters *)

Lemma int_inr (s : string) (z : Z) :
  Py.int s = inr z <-> Py.parse_int s = Some z.
Proof.
  unfold Py.int, Py.ret, Py.raise.
  destruct (Py.parse_int s); split; congruence.
Qed.

Lemma int_inl (s : string) (e : Py.exn) :
  Py.int s = inl e -> e = Py.ValueError /\ Py.parse_int s = None.
Proof.
  unfold Py.int, Py.ret, Py.raise.
  destruct (Py.parse_int s); [discriminate|].
  intros [= <-]. auto.
Qed.

(** A comprehension over [int] either converts every token or raises
    [ValueError] because one token is not an integer. *)
Lemma comprehension_int (toks : list string) :
  (exists ids, Py.comprehension Py.int toks = inr ids
               /\ map Py.parse_int toks = map Some ids)
  \/ (Py.comprehension Py.int toks = inl Py.ValueError
      /\ exists tok, In tok toks /\ Py.parse_int tok = None).
Proof.
  induction toks as [|tok toks IH]; simpl.
  - left. exists []. auto.
  - destruct (Py.parse_int tok) as [z|] eqn:E.
    + assert (Hz : Py.int tok = inr z) by now apply int_inr.
      rewrite Hz. simpl.
      destruct IH as [(ids & -> & Hm) | (-> & tok' & Hin & Hbad)]; simpl.
      * left. exists (z :: ids). simpl. now rewrite Hm.
      * right. split; [reflexivity|]. exists tok'. auto.
    + assert (Hz : Py.int tok = inl Py.ValueError)
        by (unfold Py.int; now rewrite E).
      rewrite Hz. simpl.
      right. split; [reflexivity|]. exists tok. auto.
Qed.

Lemma comprehension_int_bad (toks : list string) (tok : string) :
  In tok toks -> Py.parse_int tok = None ->
  Py.comprehension Py.int toks = inl Py.ValueError.
Proof.
  intros Hin Hbad.
  destruct (comprehension_int toks) as [(ids & _ & Hm) | [H _]]; [|exact H].
  exfalso. apply (in_map Py.parse_int) in Hin. rewrite Hm, Hbad in Hin.
  apply in_map_iff in Hin. destruct Hin as (x & Hx & _). discriminate.
Qed.

Lemma params_to_ints_raises (s : string) (e : Py.exn) :
  MovieViewSet._params_to_ints s = inl e -> e = Py.ValueError.
Proof.
  unfold MovieViewSet._params_to_ints.
  destruct (comprehension_int (Py.split "," s)) as [(ids & H & _) | [H _]];
    rewrite H; [discriminate | now intros [= <-]].
Qed.

Lemma make_date_raises (y m d : Z) (e : Py.exn) :
  Py.make_date y m d = inl e -> e = Py.ValueError.
Proof.
  unfold Py.make_date, Py.raise, Py.ret.
  destruct (_ && _); congruence.
Qed.

(** [strptime] raises nothing but [ValueError]. *)
Lemma strptime_raises (s : string) (e : Py.exn) :
  Py.strptime_Ymd s = inl e -> e = Py.ValueError.
Proof.
  unfold Py.strptime_Ymd, Py.raise.
  destruct (Py.directive_Y s) as [[y s1]|]; [|congruence].
  destruct (Py.literal "-" s1) as [s2|]; [|congruence].
  destruct (Py.directive_m s2) as [[m s3]|]; [|congruence].
  destruct (Py.literal "-" s3) as [s4|]; [|congruence].
  destruct (Py.directive_d s4) as [[d [|c r]]|]; try congruence.
  apply make_date_raises.
Qed.

(** The date block of the session view set, alone. *)
Lemma session_date_block (p : option string) :
  (exists q, match Py.truthy p with
             | Some date =>
                 date <- Py.strptime_Ymd date ;;
                 Py.ret (MovieSessionViewSet.filter_
                           (MovieSessionViewSet.show_time__date date)
                           MovieSessionViewSet.queryset)
             | None => Py.ret MovieSessionViewSet.queryset
             end = inr q)
  \/ match Py.truthy p with
     | Some date =>
         date <- Py.strptime_Ymd date ;;
         Py.ret (MovieSessionViewSet.filter_
                   (MovieSessionViewSet.show_time__date date)
                   MovieSessionViewSet.queryset)
     | None => Py.ret MovieSessionViewSet.queryset
     end = inl Py.ValueError.
Proof.
  destruct (Py.truthy p) as [s|]; [|left; eexists; reflexivity].
  destruct (Py.strptime_Ymd s) as [e|d] eqn:E; simpl.
  - right. now rewrite (strptime_raises _ _ E).
  - left. eexists; reflexivity.
Qed.

(** ** Dates *)

Lemma isdigit_cases (c : ascii) :
  Py.isdigit c = true ->
  In c ["0"; "1"; "2"; "3"; "4"; "5"; "6"; "7"; "8"; "9"]%char.
Proof.
  destruct c as [[] [] [] [] [] [] [] []]; vm_compute; intros H;
    try discriminate H; tauto.
Qed.

Ltac each_digit H :=
  apply isdigit_cases in H; simpl in H;
  repeat (destruct H as [<- | H]); [.. | contradiction].

(** [%m] reads a two-digit month. *)
Lemma directive_m_two_digits (a b : ascii) (r : string) :
  Py.isdigit a = true -> Py.isdigit b = true ->
  1 <= 10 * Py.digit_value a + Py.digit_value b <= 12 ->
  Py.directive_m (String a (String b r))
  = Some (10 * Py.digit_value a + Py.digit_value b, r).
Proof.
  intros Ha Hb. each_digit Ha; each_digit Hb; vm_compute;
    intros [H1 H2]; try reflexivity;
    try (exfalso; apply H1; reflexivity);
    try (exfalso; apply H2; reflexivity).
Qed.

(** [%d] reads a two-digit day that ends the text. *)
Lemma directive_d_two_digits (a b : ascii) :
  Py.isdigit a = true -> Py.isdigit b = true ->
  1 <= 10 * Py.digit_value a + Py.digit_value b <= 31 ->
  Py.directive_d (String a (String b EmptyString))
  = Some (10 * Py.digit_value a + Py.digit_value b, EmptyString).
Proof.
  intros Ha Hb. each_digit Ha; each_digit Hb; vm_compute;
    intros [H1 H2]; try reflexivity;
    try (exfalso; apply H1; reflexivity);
    try (exfalso; apply H2; reflexivity).
Qed.

Lemma make_date_inr (y m d : Z) (x : Py.date) :
  Py.make_date y m d = inr x ->
  x = {| Py.year := y; Py.month := m; Py.day := d |}
  /\ 1 <= y <= 9999 /\ 1 <= m <= 12 /\ 1 <= d <= Py.days_in_month y m.
Proof.
  unfold Py.make_date, Py.raise, Py.ret.
  destruct (_ && _) eqn:E; [|intros [=]].
  intros [= <-]. rewrite !andb_true_iff, !Z.leb_le in E. tauto.
Qed.

Lemma days_in_month_le (y m : Z) : Py.days_in_month y m <= 31.
Proof.
  unfold Py.days_in_month.
  destruct (m =? 2); [destruct (Py.is_leap y); lia|].
  destruct (_ || _); lia.
Qed.

(** A date written as YYYY-MM-DD is read as that date. *)
Lemma strptime_reads_YYYY_MM_DD (s : string) (d : Py.date) :
  Spec.YYYY_MM_DD s = Some d -> Py.strptime_Ymd s = inr d.
Proof.
  unfold Spec.YYYY_MM_DD.
  destruct s as [|y1 [|y2 [|y3 [|y4 [|c1 s]]]]]; try discriminate.
  destruct c1 as [[] [] [] [] [] [] [] []]; try discriminate.
  destruct s as [|m1 [|m2 [|c2 s]]]; try discriminate.
  destruct c2 as [[] [] [] [] [] [] [] []]; try discriminate.
  destruct s as [|d1 [|d2 [|x s]]]; try discriminate.
  cbn [forallb].
  destruct (Py.isdigit y1) eqn:Y1; [|intros [=]].
  destruct (Py.isdigit y2) eqn:Y2; [|intros [=]].
  destruct (Py.isdigit y3) eqn:Y3; [|intros [=]].
  destruct (Py.isdigit y4) eqn:Y4; [|intros [=]].
  destruct (Py.isdigit m1) eqn:M1; [|intros [=]].
  destruct (Py.isdigit m2) eqn:M2; [|intros [=]].
  destruct (Py.isdigit d1) eqn:D1; [|intros [=]].
  destruct (Py.isdigit d2) eqn:D2; [|intros [=]].
  cbn [andb].
  destruct (Py.make_date _ _ _) as [e|x] eqn:E; [intros [=]|].
  intros [= ->].
  pose proof (make_date_inr _ _ _ _ E) as (_ & _ & Hm & Hd).
  pose proof (days_in_month_le
                (1000 * Py.digit_value y1 + 100 * Py.digit_value y2
                 + 10 * Py.digit_value y3 + Py.digit_value y4)
                (10 * Py.digit_value m1 + Py.digit_value m2)) as Hle.
  unfold Py.strptime_Ymd, Py.directive_Y.
  rewrite Y1, Y2, Y3, Y4. cbn [andb Py.literal].
  change (Ascii.eqb "-" "-") with true. cbv iota.
  rewrite (directive_m_two_digits m1 m2 _ M1 M2 Hm).
  cbn [Py.literal]. change (Ascii.eqb "-" "-") with true. cbv iota.
  rewrite (directive_d_two_digits d1 d2 D1 D2) by lia.
  exact E.
Qed.

(** ** Lists of ids as clients write them *)

Lemma digit_is_no_blank (c : ascii) :
  Py.isdigit c = true ->
  Py.isspace c = false /\ Ascii.eqb c "," = false
  /\ c <> "+"%char /\ c <> "-"%char.
Proof.
  intros H. each_digit H; repeat split; discriminate.
Qed.

Lemma rstrip_numeral (s : string) :
  Spec.all_digits s = true -> Py.rstrip s = s.
Proof.
  induction s as [|c s IH]; simpl; [reflexivity|].
  intros H. apply andb_true_iff in H. destruct H as [Hc Hs].
  rewrite (IH Hs).
  destruct s; [|reflexivity].
  now rewrite (proj1 (digit_is_no_blank c Hc)).
Qed.

Lemma digits_numeral (s : string) (acc : Z) (b : bool) :
  s <> EmptyString -> Spec.all_digits s = true ->
  Py.digits acc b s = Some (Spec.value_from acc s).
Proof.
  revert acc b. induction s as [|c s IH]; intros acc b Hne H;
    [congruence|].
  simpl in H. apply andb_true_iff in H. destruct H as [Hc Hs].
  simpl. rewrite Hc.
  destruct s as [|c' s']; [reflexivity|].
  apply IH; [discriminate | exact Hs].
Qed.

Lemma count_digits_numeral (s : string) :
  Spec.all_digits s = true ->
  Py.count_digits s = Z.of_nat (String.length s).
Proof.
  induction s as [|c s IH]; [reflexivity|].
  cbn [Spec.all_digits Py.count_digits String.length].
  intros H. apply andb_true_iff in H. destruct H as [-> Hs].
  rewrite (IH Hs). lia.
Qed.

(** [int] reads a numeral as the number it denotes when it has no
    more digits than the limit, and not at all otherwise. *)
Lemma int_numeral_limit (s : string) :
  Spec.numeral s ->
  Py.parse_int s
  = if Z.of_nat (String.length s) <=? Py.int_max_str_digits
    then Some (Spec.value s) else None.
Proof.
  intros [Hne H]. unfold Py.parse_int, Spec.value.
  destruct s as [|c s]; [congruence|].
  pose proof H as H'. simpl in H'. apply andb_true_iff in H'.
  destruct H' as [Hc Hs].
  destruct (digit_is_no_blank c Hc) as (Hsp & _ & Hplus & Hminus).
  cbn [Py.lstrip]. rewrite Hsp, (rstrip_numeral _ H).
  assert (Hw : Py.within_limit (String c s)
               = if Z.of_nat (String.length (String c s))
                    <=? Py.int_max_str_digits
                 then Some (Spec.value_from 0 (String c s)) else None).
  { unfold Py.within_limit. rewrite (count_digits_numeral _ H).
    destruct (_ <=? _); [|reflexivity].
    now apply digits_numeral. }
  rewrite <- Hw.
  destruct c as [[] [] [] [] [] [] [] []]; try reflexivity;
    congruence.
Qed.

Lemma int_numeral (s : string) :
  Spec.numeral s ->
  Z.of_nat (String.length s) <= Py.int_max_str_digits ->
  Py.parse_int s = Some (Spec.value s).
Proof.
  intros Hs Hshort. rewrite (int_numeral_limit _ Hs).
  destruct (Z.leb_spec (Z.of_nat (String.length s)) Py.int_max_str_digits);
    [reflexivity | lia].
Qed.

Lemma split_numeral (s : string) :
  Spec.all_digits s = true -> Py.split "," s = [s].
Proof.
  induction s as [|c s IH]; simpl; [reflexivity|].
  intros H. apply andb_true_iff in H. destruct H as [Hc Hs].
  destruct (digit_is_no_blank c Hc) as (_ & -> & _).
  now rewrite (IH Hs).
Qed.

Lemma split_numeral_comma (s rest : string) :
  Spec.all_digits s = true ->
  Py.split "," (s ++ String "," rest) = s :: Py.split "," rest.
Proof.
  induction s as [|c s IH]; simpl; [reflexivity|].
  intros H. apply andb_true_iff in H. destruct H as [Hc Hs].
  destruct (digit_is_no_blank c Hc) as (_ & -> & _).
  now rewrite (IH Hs).
Qed.

Lemma digit_char_digit (d : Z) :
  0 <= d <= 9 ->
  Py.isdigit (Decimal.digit_char d) = true
  /\ Py.digit_value (Decimal.digit_char d) = d.
Proof.
  intros H.
  assert (C : d = 0 \/ d = 1 \/ d = 2 \/ d = 3 \/ d = 4 \/ d = 5
              \/ d = 6 \/ d = 7 \/ d = 8 \/ d = 9) by lia.
  repeat (destruct C as [-> | C]; [split; reflexivity|]).
  subst. split; reflexivity.
Qed.

Lemma value_from_shift (s : string) (a : Z) :
  Spec.value_from a s
  = a * 10 ^ Z.of_nat (String.length s) + Spec.value_from 0 s.
Proof.
  revert a. induction s as [|c s IH]; intros a.
  - simpl. lia.
  - cbn [Spec.value_from String.length].
    rewrite (IH (10 * a + Py.digit_value c)),
            (IH (10 * 0 + Py.digit_value c)).
    rewrite Nat2Z.inj_succ, Z.pow_succ_r by lia. ring.
Qed.

(** The digits written for a natural number denote it. *)
Lemma decimal_fuel_value (fuel : nat) (n : Z) (tail : string) :
  0 <= n <= Z.of_nat fuel ->
  Spec.all_digits tail = true ->
  Spec.all_digits (Decimal.decimal_fuel fuel n tail) = true
  /\ Decimal.decimal_fuel fuel n tail <> EmptyString
  /\ Spec.value_from 0 (Decimal.decimal_fuel fuel n tail)
     = n * 10 ^ Z.of_nat (String.length tail) + Spec.value_from 0 tail.
Proof.
  revert n tail. induction fuel as [|fuel IH]; intros n tail Hn Ht.
  - assert (n = 0) by lia. subst n. cbn [Decimal.decimal_fuel].
    change (0 mod 10) with 0. cbn [Spec.all_digits Spec.value_from].
    rewrite Ht. split; [reflexivity|]. split; [discriminate|].
    change (10 * 0 + Py.digit_value (Decimal.digit_char 0)) with 0.
    rewrite value_from_shift. reflexivity.
  - cbn [Decimal.decimal_fuel].
    assert (Hm : 0 <= n mod 10 <= 9)
      by (pose proof (Z.mod_pos_bound n 10); lia).
    destruct (digit_char_digit _ Hm) as [Hd Hv].
    assert (Htail' : Spec.all_digits
                       (String (Decimal.digit_char (n mod 10)) tail) = true)
      by (cbn [Spec.all_digits]; now rewrite Hd, Ht).
    assert (Hval : Spec.value_from
                     0 (String (Decimal.digit_char (n mod 10)) tail)
                   = n mod 10 * 10 ^ Z.of_nat (String.length tail)
                     + Spec.value_from 0 tail).
    { cbn [Spec.value_from]. rewrite Hv, value_from_shift.
      replace (10 * 0 + n mod 10) with (n mod 10) by lia. reflexivity. }
    destruct (Z.ltb_spec n 10) as [Hlt | Hge].
    + split; [exact Htail'|]. split; [discriminate|].
      rewrite Hval, Z.mod_small by lia. reflexivity.
    + assert (Hq : 0 <= n / 10 <= Z.of_nat fuel).
      { split; [apply Z.div_pos; lia|].
        assert (n / 10 < n) by (apply Z.div_lt; lia). lia. }
      destruct (IH (n / 10) _ Hq Htail') as (A & B & C).
      split; [exact A|]. split; [exact B|].
      rewrite C, Hval. cbn [String.length].
      rewrite Nat2Z.inj_succ, Z.pow_succ_r by lia.
      rewrite (Z.div_mod n 10) at 3 by lia. ring.
Qed.

Lemma write_natural (n : Z) :
  0 <= n -> Spec.numeral (Decimal.write n) /\ Spec.value (Decimal.write n) = n.
Proof.
  intros Hn. unfold Decimal.write.
  destruct (Z.ltb_spec n 0) as [Hlt | _]; [lia|].
  destruct (decimal_fuel_value (Z.to_nat n) n EmptyString) as (A & B & C);
    [lia | reflexivity |].
  split; [split; assumption|].
  unfold Spec.value. rewrite C. simpl. lia.
Qed.

Lemma write_negative (n : Z) :
  n < 0 ->
  exists s, Decimal.write n = String "-" s /\ Spec.numeral s
            /\ Spec.value s = - n.
Proof.
  intros Hn. unfold Decimal.write.
  destruct (Z.ltb_spec n 0) as [_ | Hge]; [|lia].
  destruct (decimal_fuel_value (Z.to_nat (- n)) (- n) EmptyString)
    as (A & B & C); [lia | reflexivity |].
  eexists. split; [reflexivity|]. split; [split; assumption|].
  unfold Spec.value. rewrite C. simpl. lia.
Qed.

(** No more digits are written than the size of the number asks
    for. *)
Lemma decimal_fuel_length (fuel : nat) (n : Z) (tail : string) (k : Z) :
  0 <= n <= Z.of_nat fuel -> n < 10 ^ k -> 1 <= k ->
  Z.of_nat (String.length (Decimal.decimal_fuel fuel n tail))
  <= Z.of_nat (String.length tail) + k.
Proof.
  revert n tail k. induction fuel as [|fuel IH]; intros n tail k Hn Hk Hk1.
  - cbn [Decimal.decimal_fuel String.length]. lia.
  - cbn [Decimal.decimal_fuel].
    destruct (Z.ltb_spec n 10) as [Hlt | Hge].
    + cbn [String.length]. lia.
    + assert (Hk2 : 2 <= k).
      { destruct (Z.le_gt_cases 2 k) as [H | H]; [exact H|].
        assert (k = 1) by lia. subst k. change (10 ^ 1) with 10 in Hk. lia. }
      assert (Hq : 0 <= n / 10 <= Z.of_nat fuel).
      { split; [apply Z.div_pos; lia|].
        assert (n / 10 < n) by (apply Z.div_lt; lia). lia. }
      assert (Hq' : n / 10 < 10 ^ (k - 1)).
      { apply Z.div_lt_upper_bound; [lia|].
        rewrite <- Z.pow_succ_r by lia.
        replace (Z.succ (k - 1)) with k by lia. exact Hk. }
      pose proof (IH (n / 10) (String (Decimal.digit_char (n mod 10)) tail)
                     (k - 1) Hq Hq' ltac:(lia)) as H.
      cbn [String.length] in H. lia.
Qed.

(** [int] reads the decimal text of an integer it converts. *)
Lemma int_write (n : Z) :
  Decimal.convertible n -> Py.parse_int (Decimal.write n) = Some n.
Proof.
  unfold Decimal.convertible. intros Hc.
  assert (Hlimit : 1 <= Py.int_max_str_digits) by (vm_compute; discriminate).
  destruct (Z.lt_ge_cases n 0) as [Hneg | Hpos].
  - destruct (write_negative n Hneg) as (s & E & [Hne Hs] & Hv).
    assert (Hlen : Z.of_nat (String.length s) <= Py.int_max_str_digits).
    { unfold Decimal.write in E.
      destruct (Z.ltb_spec n 0) as [_ | ?]; [|lia].
      injection E as <-.
      pose proof (decimal_fuel_length (Z.to_nat (- n)) (- n) EmptyString
                    Py.int_max_str_digits ltac:(lia) ltac:(lia) Hlimit) as H.
      cbn [String.length] in H. lia. }
    rewrite E. unfold Py.parse_int.
    assert (Hl : Py.rstrip (Py.lstrip (String "-" s)) = String "-" s).
    { change (Py.lstrip (String "-" s)) with (String "-" s).
      cbn [Py.rstrip]. rewrite (rstrip_numeral _ Hs).
      destruct s; [congruence | reflexivity]. }
    rewrite Hl. cbv beta iota.
    unfold Py.within_limit. rewrite (count_digits_numeral _ Hs).
    destruct (Z.leb_spec (Z.of_nat (String.length s))
                         Py.int_max_str_digits); [|lia].
    rewrite (digits_numeral _ 0 false Hne Hs). cbn [option_map].
    unfold Spec.value in Hv. rewrite Hv. f_equal. lia.
  - destruct (write_natural n Hpos) as [Hnum Hv].
    rewrite (int_numeral _ Hnum), Hv; [reflexivity|].
    unfold Decimal.write.
    destruct (Z.ltb_spec n 0) as [? | _]; [lia|].
    pose proof (decimal_fuel_length (Z.to_nat n) n EmptyString
                  Py.int_max_str_digits ltac:(lia) ltac:(lia) Hlimit) as H.
    cbn [String.length] in H. lia.
Qed.

(** The decimal text of any integer is read as that integer or
    refused. *)
Lemma int_write_cases (n : Z) :
  Py.parse_int (Decimal.write n) = Some n
  \/ Py.parse_int (Decimal.write n) = None.
Proof.
  destruct (Z.lt_ge_cases n 0) as [Hneg | Hpos].
  - destruct (write_negative n Hneg) as (s & -> & [Hne Hs] & Hv).
    unfold Py.parse_int.
    assert (Hl : Py.rstrip (Py.lstrip (String "-" s)) = String "-" s).
    { change (Py.lstrip (String "-" s)) with (String "-" s).
      cbn [Py.rstrip]. rewrite (rstrip_numeral _ Hs).
      destruct s; [congruence | reflexivity]. }
    rewrite Hl. cbv beta iota. unfold Py.within_limit.
    destruct (_ <=? _); [|now right].
    rewrite (digits_numeral _ 0 false Hne Hs). cbn [option_map].
    unfold Spec.value in Hv. rewrite Hv. left. f_equal. lia.
  - destruct (write_natural n Hpos) as [Hnum Hv].
    rewrite (int_numeral_limit _ Hnum), Hv.
    destruct (_ <=? _); [now left | now right].
Qed.

Lemma split_write (n : Z) :
  Py.split "," (Decimal.write n) = [Decimal.write n].
Proof.
  destruct (Z.lt_ge_cases n 0) as [Hneg | Hpos].
  - destruct (write_negative n Hneg) as (s & -> & [_ Hs] & _).
    cbn [Py.split]. change (Ascii.eqb "-" ",") with false. cbv iota.
    now rewrite (split_numeral _ Hs).
  - destruct (write_natural n Hpos) as [[_ Hs] _]. now apply split_numeral.
Qed.

Lemma split_write_comma (n : Z) (rest : string) :
  Py.split "," (Decimal.write n ++ String "," rest)
  = Decimal.write n :: Py.split "," rest.
Proof.
  destruct (Z.lt_ge_cases n 0) as [Hneg | Hpos].
  - destruct (write_negative n Hneg) as (s & -> & [_ Hs] & _).
    cbn [Py.split String.append].
    change (Ascii.eqb "-" ",") with false. cbv iota.
    now rewrite (split_numeral_comma _ _ Hs).
  - destruct (write_natural n Hpos) as [[_ Hs] _].
    now apply split_numeral_comma.
Qed.

Lemma split_concat_write (ids : list Z) :
  ids <> [] ->
  Py.split "," (String.concat "," (map Decimal.write ids))
  = map Decimal.write ids.
Proof.
  induction ids as [|n ids IH]; [congruence|]. intros _.
  destruct ids as [|m ids].
  - simpl. apply split_write.
  - change (String.concat "," (map Decimal.write (n :: m :: ids)))
      with (Decimal.write n
            ++ String "," (String.concat "," (map Decimal.write (m :: ids)))).
    rewrite split_write_comma, IH by discriminate. reflexivity.
Qed.

(** The comma-separated decimal text of a list of ids is converted to
    that list. *)
Lemma params_to_ints_of_decimals (ids : list Z) :
  ids <> [] -> Forall Decimal.convertible ids ->
  MovieViewSet._params_to_ints (String.concat "," (map Decimal.write ids))
  = inr ids.
Proof.
  intros Hne Hall. unfold MovieViewSet._params_to_ints.
  rewrite (split_concat_write _ Hne). clear Hne.
  induction Hall as [|n ids Hn Hall IH]; [reflexivity|].
  cbn [map Py.comprehension].
  assert (E : Py.int (Decimal.write n) = inr n)
    by (apply int_inr, int_write; exact Hn).
  rewrite E, IH. reflexivity.
Qed.

Lemma concat_write_not_empty (ids : list Z) :
  ids <> [] -> String.concat "," (map Decimal.write ids) <> EmptyString.
Proof.
  destruct ids as [|n ids]; [congruence|]. intros _.
  assert (Hn : exists c r, Decimal.write n = String c r).
  { destruct (Z.lt_ge_cases n 0) as [Hneg | Hpos].
    - destruct (write_negative n Hneg) as (s & -> & _). eauto.
    - destruct (write_natural n Hpos) as [[Hne _] _].
      destruct (Decimal.write n); [congruence | eauto]. }
  destruct Hn as (c & r & E). cbn [map String.concat]. rewrite E.
  destruct (map Decimal.write ids); discriminate.
Qed.

(** So a parameter written that way reads as those ids. *)
Lemma written_reads_as (p : option string) (ids : option (list Z)) :
  Spec.written p ids -> Spec.reads_as p ids.
Proof.
  destruct ids as [l|]; simpl; [|auto].
  intros (Hne & Hall & ->). eexists.
  split; [split; [reflexivity | now apply concat_write_not_empty]|].
  now apply params_to_ints_of_decimals.
Qed.

(** ** Titles regardless of case *)

Lemma code_bound (c : ascii) : 0 <= Py.code c < 256.
Proof.
  unfold Py.code. pose proof (N_ascii_bounded c). lia.
Qed.

Lemma code_inj (a b : ascii) : Py.code a = Py.code b -> a = b.
Proof.
  unfold Py.code. intros H. apply N2Z.inj in H.
  rewrite <- (ascii_N_embedding a), <- (ascii_N_embedding b). now rewrite H.
Qed.

Lemma code_lower_char (c : ascii) :
  Py.code (Py.lower_char c)
  = if (65 <=? Py.code c) && (Py.code c <=? 90) then Py.code c + 32
    else Py.code c.
Proof.
  unfold Py.lower_char.
  destruct ((65 <=? Py.code c) && (Py.code c <=? 90)) eqn:E; [|reflexivity].
  apply andb_true_iff in E. rewrite !Z.leb_le in E.
  unfold Py.code in *. rewrite N_ascii_embedding; lia.
Qed.

(** Folding the case identifies exactly the letters that differ in
    case. *)
Lemma lower_char_same (a b : ascii) :
  Py.lower_char a = Py.lower_char b <-> Spec.same_letter a b.
Proof.
  unfold Spec.same_letter.
  pose proof (code_lower_char a) as Ha. pose proof (code_lower_char b) as Hb.
  split.
  - intros E. rewrite E in Ha. rewrite Ha in Hb.
    destruct (Z.leb_spec 65 (Py.code a)), (Z.leb_spec (Py.code a) 90),
             (Z.leb_spec 65 (Py.code b)), (Z.leb_spec (Py.code b) 90);
      cbn [andb] in Hb; lia.
  - intros H. apply code_inj. rewrite Ha, Hb.
    destruct (Z.leb_spec 65 (Py.code a)), (Z.leb_spec (Py.code a) 90),
             (Z.leb_spec 65 (Py.code b)), (Z.leb_spec (Py.code b) 90);
      cbn [andb]; lia.
Qed.

Lemma lower_same (s t : string) :
  Py.lower s = Py.lower t <-> Spec.same_text s t.
Proof.
  revert t. induction s as [|a s IH]; intros [|b t]; simpl;
    try (split; [discriminate | contradiction]); [tauto|].
  rewrite <- IH, <- lower_char_same. split.
  - now intros [= -> ->].
  - now intros [-> ->].
Qed.

Lemma lower_app (a b : string) :
  Py.lower (a ++ b) = Py.lower a ++ Py.lower b.
Proof. induction a as [|c a IH]; simpl; [reflexivity | now rewrite IH]. Qed.

Lemma lower_app_inv (a b h : string) :
  Py.lower h = a ++ b ->
  exists x y, h = x ++ y /\ Py.lower x = a /\ Py.lower y = b.
Proof.
  revert h. induction a as [|c a IH]; intros h H.
  - exists EmptyString, h. auto.
  - destruct h as [|d h]; [discriminate|]. simpl in H.
    injection H as Hc Hr. destruct (IH h Hr) as (x & y & -> & Hx & Hy).
    exists (String d x), y. simpl. now rewrite Hc, Hx.
Qed.

Lemma prefix_app (n h : string) :
  String.prefix n h = true <-> exists rest, h = n ++ rest.
Proof.
  revert h. induction n as [|c n IH]; intros h.
  - destruct h; simpl; split; eauto.
  - destruct h as [|d h]; simpl.
    + split; [discriminate | intros [r [=]]].
    + destruct (ascii_dec c d) as [-> | Hne].
      * rewrite IH. split; intros [r E]; exists r; congruence.
      * split; [discriminate | intros [r [= E _]]; congruence].
Qed.

(** [contains] finds the needle somewhere in the text. *)
Lemma contains_app (n h : string) :
  Py.contains n h = true
  <-> exists before after, h = before ++ n ++ after.
Proof.
  induction h as [|d h IH]; cbn [Py.contains];
    rewrite orb_true_iff, prefix_app.
  - split.
    + intros [[r E] | [=]]. exists EmptyString, r. exact E.
    + intros (x & y & E). left. destruct x; [|discriminate].
      exists y. exact E.
  - rewrite IH. split.
    + intros [[r E] | (x & y & E)].
      * exists EmptyString, r. exact E.
      * exists (String d x), y. simpl. now rewrite E.
    + intros (x & y & E). destruct x as [|c x].
      * left. exists y. exact E.
      * right. simpl in E. injection E as _ E. eauto.
Qed.

(** The condition [title__icontains] is the occurrence of the
    parameter in the title regardless of case. *)
Lemma icontains_occurs (t : string) (m : Models.Movie) :
  MovieViewSet.title__icontains t m = true
  <-> Spec.occurs_in t (Models.title m).
Proof.
  unfold MovieViewSet.title__icontains, Spec.occurs_in.
  rewrite contains_app. split.
  - intros (x' & z' & E).
    apply lower_app_inv in E. destruct E as (x & y & Eh & _ & Ey).
    apply lower_app_inv in Ey. destruct Ey as (piece & z & -> & Ep & _).
    exists x, piece, z. split; [exact Eh|].
    apply lower_same. now rewrite Ep.
  - intros (x & piece & z & -> & Hs). apply lower_same in Hs.
    exists (Py.lower x), (Py.lower z).
    now rewrite !lower_app, Hs.
Qed.

Lemma title_matches_has (p : option string) (m : Models.Movie) :
  Spec.title_matches p m <-> Spec.title_has p m.
Proof.
  unfold Spec.title_matches, Spec.title_has.
  split; intros H t Ht; specialize (H t Ht);
    now apply (icontains_occurs t m).
Qed.

(** ** The actions of the view sets *)

(** C8, as stated, fails: the movie-sessions resource is registered
    from a [ModelViewSet], so the router binds PUT, PATCH and DELETE to
    its [update], [partial_update] and [destroy] handlers. *)
Lemma movie_sessions_expose_update_and_destroy :
  In ("movie-sessions", MovieSessionViewSet.viewset) resources
  /\ In Routers.update (Routers.exposed MovieSessionViewSet.viewset)
  /\ In Routers.partial_update (Routers.exposed MovieSessionViewSet.viewset)
  /\ In Routers.destroy (Routers.exposed MovieSessionViewSet.viewset)
  /\ Routers.method_of Routers.destroy = Routers.DELETE
  /\ ~ (forall a, In a (Routers.exposed MovieSessionViewSet.viewset) ->
                  In a [Routers.list_; Routers.create; Routers.retrieve]).
Proof.
  repeat split; try (simpl; tauto).
  intros H. specialize (H Routers.destroy). simpl in H.
  assert (X : Routers.create = Routers.destroy \/
              Routers.retrieve = Routers.destroy \/
              Routers.update = Routers.destroy \/
              Routers.partial_update = Routers.destroy \/
              Routers.destroy = Routers.destroy \/
              Routers.list_ = Routers.destroy \/ False) by tauto.
  apply H in X. destruct X as [X | [X | [X | []]]]; discriminate.
Qed.

(** C8, amended: the genres, actors, cinema-halls, movies and orders
    resources expose no update, partial update or delete; the
    movie-sessions resource exposes exactly list, create, retrieve,
    update, partial update and destroy. *)
Theorem only_movie_sessions_are_modifiable
        (name : string) (v : Routers.ViewSet) :
  In (name, v) resources ->
  (name <> "movie-sessions" ->
   forall a, In a (Routers.exposed v) -> Routers.modifies a = false)
  /\ (name = "movie-sessions" ->
      forall a, In a (Routers.exposed v) <->
                In a [Routers.list_; Routers.create; Routers.retrieve;
                      Routers.update; Routers.partial_update;
                      Routers.destroy]).
Proof.
  intros Hin. simpl in Hin.
  repeat (destruct Hin as [Hin | Hin];
          [ injection Hin as <- <-; split;
            [ intros Hne a Ha; simpl in Ha;
              try (exfalso; apply Hne; reflexivity);
              repeat (destruct Ha as [<- | Ha]; [reflexivity|]);
              contradiction
            | intros Heq; try discriminate Heq; intros a; simpl; tauto ]
          | ]).
  contradiction.
Qed.

Lemma only_movie_sessions_are_modifiable_witness :
  Routers.modifies Routers.create = false
  /\ In Routers.destroy [Routers.list_; Routers.create; Routers.retrieve;
                         Routers.update; Routers.partial_update;
                         Routers.destroy].
Proof.
  split.
  - apply (proj1 (only_movie_sessions_are_modifiable
                    "orders" OrderViewSet.viewset
                    ltac:(simpl; tauto))).
    + discriminate.
    + simpl; tauto.
  - apply (proj2 (only_movie_sessions_are_modifiable
                    "movie-sessions" MovieSessionViewSet.viewset
                    ltac:(simpl; tauto)) eq_refl).
    simpl; tauto.
Defined.

(** ** What the handlers read of a query string *)

(** The movie query depends on the query string through the three
    parameters only, and on each through its truth value. *)
Lemma movie_queryset_ext (q q' : QueryDict.t) (d : Models.Db) :
  Py.truthy (QueryDict.get "title" q)
  = Py.truthy (QueryDict.get "title" q') ->
  Py.truthy (QueryDict.get "genres" q)
  = Py.truthy (QueryDict.get "genres" q') ->
  Py.truthy (QueryDict.get "actors" q)
  = Py.truthy (QueryDict.get "actors" q') ->
  MovieViewSet.get_queryset q d = MovieViewSet.get_queryset q' d.
Proof.
  intros Ht Hg Ha. unfold MovieViewSet.get_queryset.
  now rewrite Ht, Hg, Ha.
Qed.

Lemma session_queryset_ext (q q' : QueryDict.t) :
  Py.truthy (QueryDict.get "date" q) = Py.truthy (QueryDict.get "date" q') ->
  Py.truthy (QueryDict.get "movie" q) = Py.truthy (QueryDict.get "movie" q') ->
  MovieSessionViewSet.get_queryset q = MovieSessionViewSet.get_queryset q'.
Proof.
  intros Hd Hm. unfold MovieSessionViewSet.get_queryset.
  now rewrite Hd, Hm.
Qed.

Lemma truthy_without (key key' : string) (q : QueryDict.t) :
  QueryDict.get key q = Some EmptyString ->
  Py.truthy (QueryDict.get key' q)
  = Py.truthy (QueryDict.get key' (QueryDict.without key q)).
Proof.
  intros H. destruct (string_dec key' key) as [-> | Hne].
  - now rewrite get_without_same, H.
  - now rewrite get_without_other.
Qed.

(** C9: a filter parameter given as the empty string changes nothing.
    For each of [title], [genres], [actors] the movie list is what it is
    without the parameter, and so is the session list for [date] and
    [movie], result and exception alike; with every filter parameter
    empty or missing no exception is raised, the movie list is the
    whole table and the session list is the unfiltered query. *)
Theorem empty_parameter_is_no_parameter (q : QueryDict.t) :
  (forall key, In key ["title"; "genres"; "actors"] ->
               QueryDict.get key q = Some EmptyString ->
               forall d,
                 MovieViewSet.get_queryset q d
                 = MovieViewSet.get_queryset (QueryDict.without key q) d)
  /\ (forall key, In key ["date"; "movie"] ->
                  QueryDict.get key q = Some EmptyString ->
                  forall p,
                    MovieSessionViewSet.list q p
                    = MovieSessionViewSet.list (QueryDict.without key q) p)
  /\ (Spec.blank (QueryDict.get "title" q) ->
      Spec.blank (QueryDict.get "genres" q) ->
      Spec.blank (QueryDict.get "actors" q) ->
      forall d, MovieViewSet.get_queryset q d
                = inr (MovieViewSet.distinct (Models.movies d)))
  /\ (Spec.blank (QueryDict.get "date" q) ->
      Spec.blank (QueryDict.get "movie" q) ->
      forall p, MovieSessionViewSet.list q p
                = MovieSessionViewSet.list [] p
                /\ exists rows, fst (MovieSessionViewSet.list q p) = inr rows).
Proof.
  split; [|split; [|split]].
  - intros key _ H d.
    apply movie_queryset_ext; now apply truthy_without.
  - intros key _ H p. unfold MovieSessionViewSet.list.
    now rewrite (session_queryset_ext q (QueryDict.without key q))
      by now apply truthy_without.
  - intros Ht Hg Ha d. unfold MovieViewSet.get_queryset.
    now rewrite (truthy_blank _ Ht), (truthy_blank _ Hg), (truthy_blank _ Ha).
  - intros Hd Hm p.
    unfold MovieSessionViewSet.list, MovieSessionViewSet.get_queryset.
    rewrite (truthy_blank _ Hd), (truthy_blank _ Hm).
    cbn [Py.bind Py.ret QueryDict.get QueryDict.getlist filter map rev
         Py.truthy].
    destruct (MovieSessionViewSet.iterate MovieSessionViewSet.queryset p)
      as [rows p'].
    split; [reflexivity | now exists rows].
Qed.

Lemma empty_parameter_is_no_parameter_witness :
  MovieViewSet.get_queryset [("genres", EmptyString); ("title", "in")] Sample.cinema
  = MovieViewSet.get_queryset [("title", "in")] Sample.cinema
  /\ MovieSessionViewSet.list [("date", EmptyString); ("movie", "2")] Sample.server
     = MovieSessionViewSet.list [("movie", "2")] Sample.server
  /\ MovieViewSet.get_queryset [("actors", EmptyString)] Sample.cinema
     = inr (MovieViewSet.distinct (Models.movies Sample.cinema))
  /\ MovieSessionViewSet.list [("movie", EmptyString)] Sample.server
     = MovieSessionViewSet.list [] Sample.server.
Proof.
  split; [|split; [|split]].
  - apply (proj1 (empty_parameter_is_no_parameter
                    [("genres", EmptyString); ("title", "in")]) "genres").
    + simpl; tauto.
    + reflexivity.
  - apply (proj1 (proj2 (empty_parameter_is_no_parameter
                           [("date", EmptyString); ("movie", "2")])) "date").
    + simpl; tauto.
    + reflexivity.
  - apply (proj1 (proj2 (proj2 (empty_parameter_is_no_parameter
                                  [("actors", EmptyString)])))).
    + now right.
    + now right.
    + now left.
  - apply (proj1 (proj2 (proj2 (proj2 (empty_parameter_is_no_parameter
                                  [("movie", EmptyString)])))
                   ltac:(now right) ltac:(now left) Sample.server)).
Defined.

(** ** Malformed numbers *)

(** C7, as stated, fails: a [genres] parameter that is not a number
    ends the request with Python's [ValueError], which the framework
    does not turn into a validation error. *)
Lemma malformed_genres_raise_ValueError :
  Spec.malformed_ids (QueryDict.get "genres" [("genres", "1,x")])
  /\ MovieViewSet.get_queryset [("genres", "1,x")] Sample.cinema
     = inl Py.ValueError
  /\ MovieViewSet.get_queryset [("genres", "1,x")] Sample.cinema
     <> inl Py.ValidationError.
Proof.
  split; [|split].
  - exists "1,x", "x". repeat split; try discriminate.
    simpl; tauto.
  - reflexivity.
  - discriminate.
Qed.

(** C7, amended: a request whose non-empty [genres] or [actors]
    parameter has a token that is not an integer, or whose non-empty
    [movie] parameter is not an integer, raises [ValueError]; no list is
    returned and the process is left as it was. *)
Theorem malformed_number_raises_ValueError (q : QueryDict.t) :
  (Spec.malformed_ids (QueryDict.get "genres" q)
   \/ Spec.malformed_ids (QueryDict.get "actors" q) ->
   forall d, MovieViewSet.get_queryset q d = inl Py.ValueError)
  /\ (Spec.malformed_int (QueryDict.get "movie" q) ->
      forall p, MovieSessionViewSet.list q p = (inl Py.ValueError, p)).
Proof.
  split.
  - intros H d. unfold MovieViewSet.get_queryset.
    set (titled := match Py.truthy (QueryDict.get "title" q) with
                   | Some t => _ | None => _ end).
    destruct H as [(s & tok & Hg & Hin & Hbad) | (s & tok & Hg & Hin & Hbad)].
    + rewrite (truthy_given _ _ Hg).
      unfold MovieViewSet._params_to_ints.
      now rewrite (comprehension_int_bad _ _ Hin Hbad).
    + rewrite (truthy_given _ _ Hg).
      unfold MovieViewSet._params_to_ints at 2.
      rewrite (comprehension_int_bad _ _ Hin Hbad).
      destruct (Py.truthy (QueryDict.get "genres" q)) as [g|]; simpl; auto.
      destruct (MovieViewSet._params_to_ints g) as [e|ids] eqn:E; simpl; auto.
      now rewrite (params_to_ints_raises _ _ E).
  - intros (s & Hg & Hbad) p.
    unfold MovieSessionViewSet.list, MovieSessionViewSet.get_queryset.
    rewrite (truthy_given _ _ Hg).
    assert (Hi : Py.int s = inl Py.ValueError)
      by (unfold Py.int; now rewrite Hbad).
    rewrite Hi.
    destruct (session_date_block (QueryDict.get "date" q)) as [[q0 ->] | ->];
      reflexivity.
Qed.

Lemma malformed_number_raises_ValueError_witness :
  MovieViewSet.get_queryset [("actors", "3,four")] Sample.cinema
  = inl Py.ValueError
  /\ MovieSessionViewSet.list [("movie", "one")] Sample.server
     = (inl Py.ValueError, Sample.server).
Proof.
  split.
  - apply (proj1 (malformed_number_raises_ValueError [("actors", "3,four")])).
    right. exists "3,four", "four".
    repeat split; try discriminate. simpl; tauto.
  - apply (proj2 (malformed_number_raises_ValueError [("movie", "one")])).
    exists "one". repeat split; discriminate.
Defined.

(** ** Movies *)

(** The join keeps the movies that have a link to one of the ids. *)
Lemma In_id__in (links : list (Z * Z)) (ids : list Z)
      (qs : list Models.Movie) (m : Models.Movie) :
  In m (MovieViewSet.id__in links ids qs)
  <-> In m qs /\ exists i, In i ids /\ In (Models.movie_id m, i) links.
Proof.
  unfold MovieViewSet.id__in. rewrite in_flat_map. split.
  - intros (m' & Hm' & H). apply in_map_iff in H.
    destruct H as ([k i] & <- & H). apply filter_In in H.
    destruct H as [Hl H]. apply andb_true_iff in H. destruct H as [Hk Hi].
    simpl in Hk, Hi. apply Z.eqb_eq in Hk. subst k.
    apply existsb_exists in Hi. destruct Hi as (i' & Hi' & E).
    apply Z.eqb_eq in E. subst i'.
    split; [exact Hm'|]. exists i. auto.
  - intros (Hm & i & Hi & Hl). exists m. split; [exact Hm|].
    apply in_map_iff. exists (Models.movie_id m, i). split; [reflexivity|].
    apply filter_In. split; [exact Hl|]. simpl.
    rewrite Z.eqb_refl. simpl. apply existsb_exists. exists i.
    split; [exact Hi | apply Z.eqb_refl].
Qed.

(** One block of [get_queryset] for a relation: with a parameter that
    reads as a list of ids the block joins, without one it leaves the
    query as it is; it does not raise. *)
Lemma relation_block (p : option string) (ids : option (list Z))
      (links : list (Z * Z)) (qs : list Models.Movie) :
  Spec.reads_as p ids ->
  exists qs',
    match Py.truthy p with
    | Some s =>
        l <- MovieViewSet._params_to_ints s ;;
        Py.ret (MovieViewSet.id__in links l qs)
    | None => Py.ret qs
    end = inr qs'
    /\ forall m, In m qs' <-> In m qs /\ Spec.any_of links ids m.
Proof.
  destruct ids as [l|]; simpl.
  - intros (s & Hg & Hl). rewrite (truthy_given _ _ Hg), Hl.
    cbn [Py.bind Py.ret]. eexists. split; [reflexivity|].
    intros m. rewrite In_id__in. unfold Spec.any_of. split.
    + intros [Hm H]. split; [exact Hm|]. now intros l' [= <-].
    + intros [Hm H]. split; [exact Hm | now apply H].
  - intros Hb. rewrite (truthy_blank _ Hb). exists qs.
    split; [reflexivity|]. intros m. unfold Spec.any_of. split.
    + intros Hm. split; [exact Hm | intros l [=]].
    + now intros [Hm _].
Qed.

Lemma title_block (p : option string) (qs : list Models.Movie)
      (m : Models.Movie) :
  In m match Py.truthy p with
       | Some t => filter (MovieViewSet.title__icontains t) qs
       | None => qs
       end
  <-> In m qs /\ Spec.title_matches p m.
Proof.
  unfold Spec.title_matches.
  destruct (Py.truthy p) as [t|] eqn:E.
  - apply truthy_Some in E. rewrite filter_In.
    unfold MovieViewSet.title__icontains. split.
    + intros [Hm H]. split; [exact Hm|]. intros t' [Ht' _].
      destruct E as [E _]. congruence.
    + intros [Hm H]. split; [exact Hm | now apply H].
  - apply truthy_None in E. split.
    + intros Hm. split; [exact Hm|]. intros t [Ht Hne].
      destruct E as [E | E]; congruence.
    + now intros [Hm _].
Qed.

(** The movie list for parameters that read as id lists: it is
    returned, without repetition, and holds the movies that pass every
    filter given. *)
Lemma movie_queryset_spec (q : QueryDict.t) (d : Models.Db)
      (genres actors : option (list Z)) :
  Spec.reads_as (QueryDict.get "genres" q) genres ->
  Spec.reads_as (QueryDict.get "actors" q) actors ->
  exists result,
    MovieViewSet.get_queryset q d = inr result
    /\ NoDup result
    /\ forall m,
        In m result
        <-> In m (Models.movies d)
            /\ Spec.title_matches (QueryDict.get "title" q) m
            /\ Spec.any_of (Models.movie_genres d) genres m
            /\ Spec.any_of (Models.movie_actors d) actors m.
Proof.
  intros Hg Ha. unfold MovieViewSet.get_queryset.
  set (titled := match Py.truthy (QueryDict.get "title" q) with
                 | Some t => _ | None => _ end).
  destruct (relation_block _ _ (Models.movie_genres d) titled Hg)
    as (qg & -> & Hqg).
  cbn [Py.bind].
  destruct (relation_block _ _ (Models.movie_actors d) qg Ha)
    as (qa & -> & Hqa).
  cbn [Py.bind Py.ret]. eexists. split; [reflexivity|].
  split; [apply NoDup_nodup|].
  intros m. unfold MovieViewSet.distinct. rewrite nodup_In, Hqa, Hqg.
  unfold titled. rewrite title_block. tauto.
Qed.

Lemma blank_reads_as_None (p : option string) :
  p = None -> Spec.reads_as p None.
Proof. intros ->. now right. Qed.

(** C1: for [genres] and [actors] parameters that are absent, empty,
    or the comma-separated decimal text of a non-empty list of integer
    ids (each of no more digits than [int()] converts), the movie list
    is returned; it holds no movie twice; a movie is in it
    exactly when it is in each of the three lists obtained with one of
    the parameters alone; and those are the movies of the table in
    whose title the [title] parameter occurs regardless of case, the
    movies linked to one of the listed genres, and the movies linked to
    one of the listed actors, each being the whole table when its
    parameter is not given. *)
Theorem movies_list_is_the_intersection
        (q : QueryDict.t) (d : Models.Db) (genres actors : option (list Z)) :
  Spec.written (QueryDict.get "genres" q) genres ->
  Spec.written (QueryDict.get "actors" q) actors ->
  exists result by_title by_genres by_actors,
    MovieViewSet.get_queryset q d = inr result
    /\ MovieViewSet.get_queryset (QueryDict.only "title" q) d = inr by_title
    /\ MovieViewSet.get_queryset (QueryDict.only "genres" q) d = inr by_genres
    /\ MovieViewSet.get_queryset (QueryDict.only "actors" q) d = inr by_actors
    /\ NoDup result
    /\ (forall m, In m result
                  <-> In m by_title /\ In m by_genres /\ In m by_actors)
    /\ (forall m, In m by_title
                  <-> In m (Models.movies d)
                      /\ Spec.title_has (QueryDict.get "title" q) m)
    /\ (forall m, In m by_genres
                  <-> In m (Models.movies d)
                      /\ Spec.any_of (Models.movie_genres d) genres m)
    /\ (forall m, In m by_actors
                  <-> In m (Models.movies d)
                      /\ Spec.any_of (Models.movie_actors d) actors m).
Proof.
  intros Hgw Haw.
  pose proof (written_reads_as _ _ Hgw) as Hg.
  pose proof (written_reads_as _ _ Haw) as Ha.
  destruct (movie_queryset_spec q d genres actors Hg Ha)
    as (result & Hr & Hnd & Hin).
  destruct (movie_queryset_spec (QueryDict.only "title" q) d None None)
    as (by_title & Ht & _ & Hint);
    try (apply blank_reads_as_None, get_only_other; discriminate).
  destruct (movie_queryset_spec (QueryDict.only "genres" q) d genres None)
    as (by_genres & Hgs & _ & Hing);
    try (apply blank_reads_as_None, get_only_other; discriminate);
    [now rewrite get_only_same|].
  destruct (movie_queryset_spec (QueryDict.only "actors" q) d None actors)
    as (by_actors & Has & _ & Hina);
    try (apply blank_reads_as_None, get_only_other; discriminate);
    [now rewrite get_only_same|].
  rewrite get_only_same in Hint.
  rewrite get_only_other in Hing, Hina by discriminate.
  assert (Hnone : forall links m, Spec.any_of links None m)
    by (intros links m l [=]).
  assert (Hnot : forall m, Spec.title_matches None m)
    by (intros m t [[=] _]).
  exists result, by_title, by_genres, by_actors.
  repeat (split; [assumption|]).
  split; [|split; [|split]]; intros m.
  - rewrite Hin, Hint, Hing, Hina.
    specialize (Hnone (Models.movie_genres d) m) as Hn1.
    specialize (Hnone (Models.movie_actors d) m) as Hn2.
    specialize (Hnot m). tauto.
  - rewrite Hint, <- title_matches_has.
    specialize (Hnone (Models.movie_genres d) m) as Hn1.
    specialize (Hnone (Models.movie_actors d) m) as Hn2. tauto.
  - rewrite Hing.
    specialize (Hnone (Models.movie_actors d) m) as Hn2.
    specialize (Hnot m). tauto.
  - rewrite Hina.
    specialize (Hnone (Models.movie_genres d) m) as Hn1.
    specialize (Hnot m). tauto.
Qed.

Lemma small_is_convertible (n : Z) :
  Z.abs n < 1000000 -> Decimal.convertible n.
Proof.
  unfold Decimal.convertible. intros H.
  apply (Z.lt_le_trans _ _ _ H).
  change 1000000 with (10 ^ 6).
  apply Z.pow_le_mono_r; [lia|]. vm_compute. discriminate.
Qed.

Lemma movies_list_is_the_intersection_witness :
  exists result by_title by_genres by_actors,
    MovieViewSet.get_queryset
      [("genres", "1,2"); ("title", "IN"); ("actors", "3")] Sample.cinema
    = inr result
    /\ NoDup result
    /\ (forall m, In m result
                  <-> In m by_title /\ In m by_genres /\ In m by_actors)
    /\ (forall m, In m by_title
                  <-> In m (Models.movies Sample.cinema)
                      /\ Spec.title_has (Some "IN") m)
    /\ (forall m, In m by_genres
                  <-> In m (Models.movies Sample.cinema)
                      /\ Spec.any_of (Models.movie_genres Sample.cinema)
                                     (Some [1; 2]) m)
    /\ (forall m, In m by_actors
                  <-> In m (Models.movies Sample.cinema)
                      /\ Spec.any_of (Models.movie_actors Sample.cinema)
                                     (Some [3]) m).
Proof.
  destruct (movies_list_is_the_intersection
              [("genres", "1,2"); ("title", "IN"); ("actors", "3")]
              Sample.cinema (Some [1; 2]) (Some [3]))
    as (result & by_title & by_genres & by_actors
        & Hr & _ & _ & _ & Hnd & Hall & Ht & Hg & Ha).
  - split; [discriminate|]. split; [|reflexivity].
    repeat constructor; apply small_is_convertible; simpl; lia.
  - split; [discriminate|]. split; [|reflexivity].
    repeat constructor; apply small_is_convertible; simpl; lia.
  - exists result, by_title, by_genres, by_actors.
    split; [exact Hr|]. split; [exact Hnd|]. split; [exact Hall|].
    split; [exact Ht|]. split; [exact Hg | exact Ha].
Defined.

(** ** Movie sessions: the query *)

Lemma Count_left_join (d : Models.Db) (s : Models.MovieSession) :
  Django.Count (Django.left_join_tickets d s) = Spec.sold d s.
Proof.
  unfold Django.Count, Django.left_join_tickets, Spec.sold.
  destruct (filter _ (Models.tickets d)) as [|t ts]; [reflexivity|].
  f_equal. generalize (t :: ts). intros l.
  induction l as [|x l IH]; simpl; congruence.
Qed.

(** Run on a database, the query yields rows whose annotation is the
    capacity of the hall minus the tickets the database holds for the
    session at that moment. *)
Lemma annotated_row (d : Models.Db) (r : Django.SessionRow) :
  In r (MovieSessionViewSet.annotated d)
  <-> In (Django.session r) (Models.movie_sessions d)
      /\ In (Django.hall r) (Models.cinema_halls d)
      /\ Models.hall_id (Django.hall r)
         = Models.cinema_hall (Django.session r)
      /\ Django.tickets_available r
         = Spec.capacity (Django.hall r) - Spec.sold d (Django.session r).
Proof.
  unfold MovieSessionViewSet.annotated. rewrite in_flat_map. split.
  - intros (s & Hs & H). apply in_map_iff in H.
    destruct H as (h & <- & Hh). apply filter_In in Hh.
    destruct Hh as [Hh E]. apply Z.eqb_eq in E. simpl.
    rewrite Count_left_join. auto.
  - destruct r as [s h n]. simpl. intros (Hs & Hh & E & Hn).
    exists s. split; [exact Hs|]. apply in_map_iff. exists h.
    split.
    + rewrite Count_left_join. unfold Spec.capacity in Hn. now rewrite Hn.
    + apply filter_In. split; [exact Hh | now apply Z.eqb_eq].
Qed.

Lemma date_eqb_eq (a b : Py.date) : Py.date_eqb a b = true <-> a = b.
Proof.
  destruct a as [y m d], b as [y' m' d']. unfold Py.date_eqb. simpl.
  rewrite !andb_true_iff, !Z.eqb_eq. split.
  - now intros [[-> ->] ->].
  - now intros [= -> -> ->].
Qed.

Lemma execute_row (d : Models.Db) (ws : list MovieSessionViewSet.lookup)
      (r : Django.SessionRow) :
  In r (MovieSessionViewSet.execute d ws)
  <-> In r (MovieSessionViewSet.annotated d) /\ Forall (Spec.meets r) ws.
Proof.
  unfold MovieSessionViewSet.execute. rewrite filter_In, forallb_forall.
  rewrite Forall_forall.
  assert (H : forall l, MovieSessionViewSet.holds r l = true
                        <-> Spec.meets r l).
  { intros [day | n]; simpl; [apply date_eqb_eq | apply Z.eqb_eq]. }
  split; intros [Hr Hall]; (split; [exact Hr|]);
    intros l Hl; apply H; auto.
Qed.

(** A request with a usable [date] or [movie] parameter works on a
    clone and reads the database: its rows are those of the query at
    the time of the request, and the process is not changed. *)
Lemma list_with_a_filter (q : QueryDict.t) (p : Django.Process)
      (ws : list MovieSessionViewSet.lookup) :
  MovieSessionViewSet.get_queryset q = inr (MovieSessionViewSet.clone ws) ->
  MovieSessionViewSet.list q p
  = (inr (MovieSessionViewSet.execute (Django.db p) ws), p).
Proof.
  intros H. unfold MovieSessionViewSet.list. now rewrite H.
Qed.

(** On that path the seats left are those of the moment: every row
    returned is a session of the database, with its hall, that meets
    the conditions, and its annotation is the capacity of the hall minus
    the tickets persisted for the session. *)
Lemma filtered_list_is_current (q : QueryDict.t) (p : Django.Process)
      (ws : list MovieSessionViewSet.lookup) :
  MovieSessionViewSet.get_queryset q = inr (MovieSessionViewSet.clone ws) ->
  exists rows,
    MovieSessionViewSet.list q p = (inr rows, p)
    /\ forall r,
        In r rows
        <-> (In (Django.session r) (Models.movie_sessions (Django.db p))
             /\ In (Django.hall r) (Models.cinema_halls (Django.db p))
             /\ Models.hall_id (Django.hall r)
                = Models.cinema_hall (Django.session r)
             /\ Django.tickets_available r
                = Spec.capacity (Django.hall r)
                  - Spec.sold (Django.db p) (Django.session r))
            /\ Forall (Spec.meets r) ws.
Proof.
  intros H. eexists. split; [apply list_with_a_filter; exact H|].
  intros r. rewrite execute_row, annotated_row. reflexivity.
Qed.

(** The query set [get_queryset] returns, by what the two parameters
    are: the shared object of the class without a filter, a clone with
    the conditions otherwise. *)
Lemma get_queryset_cases (q : QueryDict.t) (day : Py.date) (n : Z)
      (sd sm : string) :
  let date := QueryDict.get "date" q in
  let movie := QueryDict.get "movie" q in
  (Spec.blank date -> Spec.blank movie ->
   MovieSessionViewSet.get_queryset q = inr MovieSessionViewSet.queryset)
  /\ (Spec.given date sd -> Py.strptime_Ymd sd = inr day ->
      Spec.blank movie ->
      MovieSessionViewSet.get_queryset q
      = inr (MovieSessionViewSet.clone
               [MovieSessionViewSet.show_time__date day]))
  /\ (Spec.blank date -> Spec.given movie sm ->
      Py.parse_int sm = Some n ->
      MovieSessionViewSet.get_queryset q
      = inr (MovieSessionViewSet.clone [MovieSessionViewSet.movie_id n]))
  /\ (Spec.given date sd -> Py.strptime_Ymd sd = inr day ->
      Spec.given movie sm -> Py.parse_int sm = Some n ->
      MovieSessionViewSet.get_queryset q
      = inr (MovieSessionViewSet.clone
               [MovieSessionViewSet.show_time__date day;
                MovieSessionViewSet.movie_id n])).
Proof.
  intros date movie. unfold MovieSessionViewSet.get_queryset.
  fold date. fold movie.
  split; [|split; [|split]].
  - intros Hd Hm. now rewrite (truthy_blank _ Hd), (truthy_blank _ Hm).
  - intros Hd Hp Hm.
    now rewrite (truthy_given _ _ Hd), Hp, (truthy_blank _ Hm).
  - intros Hd Hm Hn. apply int_inr in Hn.
    now rewrite (truthy_blank _ Hd), (truthy_given _ _ Hm), Hn.
  - intros Hd Hp Hm Hn. apply int_inr in Hn.
    now rewrite (truthy_given _ _ Hd), Hp, (truthy_given _ _ Hm), Hn.
Qed.

(** ** Movie sessions: the shared query set *)

(** The first unfiltered list of a process reads the database. *)
Lemma first_list_reads_the_database (d : Models.Db) :
  fst (MovieSessionViewSet.list [] (Django.boot d))
  = inr (MovieSessionViewSet.annotated d).
Proof.
  unfold MovieSessionViewSet.list, MovieSessionViewSet.get_queryset.
  cbn. unfold MovieSessionViewSet.execute. cbn [forallb].
  induction (MovieSessionViewSet.annotated d) as [|r l IH];
    [reflexivity|].
  cbn [filter]. injection IH as IH. now rewrite IH.
Qed.

(** Every later unfiltered list answers from the rows of the first
    one, whatever the database has become. *)
Lemma later_lists_answer_from_the_cache
      (d : Models.Db) (cached : list Django.SessionRow) :
  MovieSessionViewSet.list []
    {| Django.db := d; Django._result_cache := Some cached |}
  = (inr cached,
     {| Django.db := d; Django._result_cache := Some cached |}).
Proof. reflexivity. Qed.

(** C2 fails on the unfiltered session list.  In the sample cinema
    (capacity 50, three tickets sold for session 1) a first list shows
    47 seats left; an order for one more seat is accepted, so that 4
    tickets are persisted; the next unfiltered list still shows 47,
    while a list filtered by movie and a retrieval, which work on a
    clone of the query set, show 46. *)
Theorem unfiltered_list_shows_stale_tickets_available :
  Sample.shown (fst (MovieSessionViewSet.list [] Sample.server))
  = inr [(1, 47); (2, 50)]
  /\ (exists o, fst (OrderViewSet.create (Sample.order_by 7 None [(3, 3)])
                                         Sample.listed_once) = inr o)
  /\ map Spec.capacity (Models.cinema_halls (Django.db Sample.then_ordered))
     = [50]
  /\ map (fun s => (Models.session_id s,
                    Spec.sold (Django.db Sample.then_ordered) s))
         (Models.movie_sessions (Django.db Sample.then_ordered))
     = [(1, 4); (2, 0)]
  /\ Sample.shown (fst (MovieSessionViewSet.list [] Sample.then_ordered))
     = inr [(1, 47); (2, 50)]
  /\ Sample.shown (fst (MovieSessionViewSet.list [("movie", "1")]
                                                 Sample.then_ordered))
     = inr [(1, 46)]
  /\ Sample.shown (match fst (MovieSessionViewSet.retrieve
                                [] 1 Sample.then_ordered) with
                   | inr r => inr [r]
                   | inl e => inl e
                   end)
     = inr [(1, 46)].
Proof.
  split; [reflexivity|].
  split; [eexists; reflexivity|].
  split; [reflexivity|].
  split; [reflexivity|].
  split; [reflexivity|].
  split; reflexivity.
Qed.

(** C6 fails on the unfiltered session list.  After a first list, a
    third session is scheduled; the database then holds sessions 1, 2
    and 3, the next list without [date] and [movie] returns 1 and 2
    only, while the list filtered by the new session's movie or day
    finds session 3. *)
Theorem unfiltered_list_misses_a_new_session :
  (exists s, fst (MovieSessionViewSet.create (Sample.day 12) 3 1
                                             Sample.listed_once) = inr s)
  /\ map Models.session_id
         (Models.movie_sessions (Django.db Sample.then_scheduled))
     = [1; 2; 3]
  /\ QueryDict.get "date" [] = None
  /\ QueryDict.get "movie" [] = None
  /\ Sample.shown (fst (MovieSessionViewSet.list [] Sample.then_scheduled))
     = inr [(1, 47); (2, 50)]
  /\ Sample.shown (fst (MovieSessionViewSet.list [("movie", "3")]
                                                 Sample.then_scheduled))
     = inr [(3, 50)]
  /\ Sample.shown (fst (MovieSessionViewSet.list [("date", "2024-10-12")]
                                                 Sample.then_scheduled))
     = inr [(3, 50)].
Proof.
  split; [eexists; reflexivity|].
  split; [reflexivity|].
  split; [reflexivity|].
  split; [reflexivity|].
  split; [reflexivity|].
  split; reflexivity.
Qed.

(** ** Movie sessions: the date parameter *)

(** C10, as stated, fails: [strptime] reads a month or a day written
    with one digit.  The text 2024-10-5 is not of the form YYYY-MM-DD,
    yet the request is answered, with the sessions of 5 October. *)
Lemma one_digit_day_is_accepted :
  Spec.given (QueryDict.get "date" [("date", "2024-10-5")]) "2024-10-5"
  /\ Spec.YYYY_MM_DD "2024-10-5" = None
  /\ Sample.shown (fst (MovieSessionViewSet.list [("date", "2024-10-5")]
                                                 Sample.server))
     = inr [(1, 47)].
Proof.
  split; [split; [reflexivity | discriminate]|].
  split; reflexivity.
Qed.

(** So is a day padded with a space. *)
Example space_padded_day_is_accepted :
  Py.strptime_Ymd "2024-10- 5"
  = inr {| Py.year := 2024; Py.month := 10; Py.day := 5 |}.
Proof. reflexivity. Qed.

(** C10, amended: when [strptime] rejects the non-empty [date]
    parameter the request raises [ValueError], whatever else it
    carries, and leaves the process as it was; a date written
    YYYY-MM-DD is not rejected; and when the parameter is accepted every
    row returned is a session of that day. *)
Theorem unreadable_date_raises_ValueError (q : QueryDict.t) (s : string) :
  Spec.given (QueryDict.get "date" q) s ->
  (forall e, Py.strptime_Ymd s = inl e ->
             forall p, MovieSessionViewSet.list q p
                       = (inl Py.ValueError, p))
  /\ (forall d, Spec.YYYY_MM_DD s = Some d -> Py.strptime_Ymd s = inr d)
  /\ (forall d, Py.strptime_Ymd s = inr d ->
                forall p rows,
                  fst (MovieSessionViewSet.list q p) = inr rows ->
                  forall r, In r rows ->
                            Py.on (Models.show_time (Django.session r)) = d).
Proof.
  intros Hg. split; [|split].
  - intros e He p. rewrite (strptime_raises _ _ He) in He.
    unfold MovieSessionViewSet.list, MovieSessionViewSet.get_queryset.
    now rewrite (truthy_given _ _ Hg), He.
  - apply strptime_reads_YYYY_MM_DD.
  - intros d Hd p rows.
    unfold MovieSessionViewSet.list, MovieSessionViewSet.get_queryset.
    rewrite (truthy_given _ _ Hg), Hd. cbn [Py.bind Py.ret].
    destruct (Py.truthy (QueryDict.get "movie" q)) as [sm|].
    + destruct (Py.int sm) as [e|n]; cbn [Py.bind Py.ret fst];
        [intros [=]|].
      cbn [MovieSessionViewSet.filter_ MovieSessionViewSet.iterate fst app].
      intros [= <-] r Hr. apply execute_row in Hr.
      destruct Hr as [_ Hall]. inversion Hall; subst. assumption.
    + cbn [MovieSessionViewSet.filter_ MovieSessionViewSet.iterate fst].
      intros [= <-] r Hr. apply execute_row in Hr.
      destruct Hr as [_ Hall]. inversion Hall; subst. assumption.
Qed.

Lemma unreadable_date_raises_ValueError_witness :
  MovieSessionViewSet.list [("date", "10/05/2024"); ("movie", "1")]
                           Sample.server
  = (inl Py.ValueError, Sample.server).
Proof.
  assert (Hg : Spec.given
                 (QueryDict.get "date" [("date", "10/05/2024"); ("movie", "1")])
                 "10/05/2024")
    by (split; [reflexivity | discriminate]).
  exact (proj1 (unreadable_date_raises_ValueError _ _ Hg)
               Py.ValueError eq_refl Sample.server).
Defined.

(** ** Orders: listing *)

Lemma In_page {A} (n k : nat) (l : list A) (x : A) :
  In x (firstn n (skipn k l)) -> In x l.
Proof.
  intros H.
  rewrite <- (firstn_skipn k l). apply in_or_app. right.
  rewrite <- (firstn_skipn n (skipn k l)). apply in_or_app. now left.
Qed.

Lemma paginate_sublist {A} (q : QueryDict.t) (l page : list A) :
  OrderPagination.paginate_queryset q l = inr page ->
  forall x, In x page -> In x l.
Proof.
  unfold OrderPagination.paginate_queryset.
  generalize OrderPagination.page_size. intros size H x Hx. revert H.
  destruct (match QueryDict.get "page" q with
            | Some s => _ | None => _ end) as [e|number];
    cbn [Py.bind]; [intros [=]|].
  unfold Py.raise, Py.ret.
  destruct (_ || _); [intros [=]|].
  intros [= <-]. eapply In_page; eassumption.
Qed.

Lemma num_pages_pos (n : nat) : 1 <= OrderPagination.num_pages n.
Proof.
  unfold OrderPagination.num_pages, OrderPagination.page_size.
  destruct n as [|n]; [lia|].
  apply Z.div_le_lower_bound; lia.
Qed.

(** C4: whatever page an authenticated caller asks for, every order
    on it is an order of the database that belongs to the caller; and
    without a [page] parameter the list is returned, the first ten of
    the caller's orders. *)
Theorem orders_list_own_orders_only
        (request : OrderViewSet.Request) (p : Django.Process) (u : Z) :
  OrderViewSet.user request = Some u ->
  (forall page, OrderViewSet.list request p = inr page ->
                forall o, In o page ->
                          In o (Models.orders (Django.db p))
                          /\ Models.user o = u)
  /\ (QueryDict.get "page" (OrderViewSet.query_params request) = None ->
      OrderViewSet.list request p
      = inr (firstn 10 (OrderViewSet.get_queryset u (Django.db p)))).
Proof.
  intros Hu. unfold OrderViewSet.list. rewrite Hu. split.
  - intros page H o Ho.
    apply (paginate_sublist _ _ _ H) in Ho.
    unfold OrderViewSet.get_queryset in Ho.
    apply filter_In in Ho. destruct Ho as [Hin Heq].
    split; [exact Hin | now apply Z.eqb_eq].
  - intros Hp. unfold OrderPagination.paginate_queryset. rewrite Hp.
    cbn [Py.bind Py.ret].
    pose proof (num_pages_pos
                  (List.length (OrderViewSet.get_queryset u (Django.db p))))
      as Hn.
    replace (1 <? 1) with false by reflexivity.
    destruct (Z.ltb_spec
                (OrderPagination.num_pages
                   (List.length (OrderViewSet.get_queryset u (Django.db p))))
                1) as [Hlt | _]; [lia|].
    reflexivity.
Qed.

Lemma orders_list_own_orders_only_witness :
  OrderViewSet.list (Sample.order_by 7 None []) Sample.server
  = inr (firstn 10 (OrderViewSet.get_queryset 7 Sample.cinema)).
Proof.
  apply (proj2 (orders_list_own_orders_only
                  (Sample.order_by 7 None []) Sample.server 7 eq_refl)).
  reflexivity.
Defined.

(** ** Orders: creation *)

Lemma slot_eqb_eq (a b : Z * Z * Z) : Models.slot_eqb a b = true <-> a = b.
Proof.
  destruct a as [[s1 r1] c1], b as [[s2 r2] c2]. unfold Models.slot_eqb.
  rewrite !andb_true_iff, !Z.eqb_eq. split.
  - intros [[-> ->] ->]. reflexivity.
  - intros [= -> -> ->]. auto.
Qed.

Lemma taken_iff (d : Models.Db) (t : Serializers.TicketData) :
  Serializers.taken d t = true <-> Spec.occupied d t.
Proof.
  unfold Serializers.taken, Spec.occupied. rewrite existsb_exists.
  split; intros (t' & Hin & H); exists t'; split; auto;
    now apply slot_eqb_eq.
Qed.

Lemma taken_iff_In (d : Models.Db) (t : Serializers.TicketData) :
  Serializers.taken d t = true
  <-> In (Serializers.place t) (map Models.slot (Models.tickets d)).
Proof.
  rewrite taken_iff, in_map_iff. unfold Spec.occupied.
  split; intros (t' & A & B); exists t'; auto.
Qed.

Lemma within_iff (h : Models.CinemaHall) (t : Serializers.TicketData) :
  Serializers.within h t = true
  <-> 1 <= Serializers.at_row t <= Models.rows h
      /\ 1 <= Serializers.at_seat t <= Models.seats_in_row h.
Proof.
  unfold Serializers.within. rewrite !andb_true_iff, !Z.leb_le. tauto.
Qed.

(** A requested ticket passes validation exactly when its seat exists
    and is free. *)
Lemma validate_ticket_ok (d : Models.Db) (t : Serializers.TicketData) :
  Serializers.validate_ticket d t = inr t
  <-> Spec.in_bounds d t /\ ~ Spec.occupied d t.
Proof.
  unfold Serializers.validate_ticket, Spec.in_bounds, Py.raise, Py.ret.
  rewrite <- taken_iff.
  destruct (Serializers.hall_of d t) as [h|].
  - destruct (Serializers.within h t) eqn:W; simpl.
    + apply within_iff in W.
      destruct (Serializers.taken d t); simpl; split;
        try discriminate; auto.
      * intros [_ H]. now elim H.
      * intros _. split; [now exists h | discriminate].
    + split; [discriminate|].
      intros [(h' & [= <-] & Hb) _].
      apply within_iff in Hb. congruence.
  - split; [discriminate|]. intros [(h & H & _) _]. discriminate.
Qed.

Lemma validate_ticket_cases (d : Models.Db) (t : Serializers.TicketData) :
  Serializers.validate_ticket d t = inr t
  \/ Serializers.validate_ticket d t = inl Py.ValidationError.
Proof.
  unfold Serializers.validate_ticket, Py.raise, Py.ret.
  destruct (Serializers.hall_of d t); [|now right].
  destruct (_ && _); [now left | now right].
Qed.

(** Validation of a payload returns the tickets as they came, or
    raises a validation error because one of them is not valid. *)
Lemma validate_all (d : Models.Db) (ts : list Serializers.TicketData) :
  (Py.comprehension (Serializers.validate_ticket d) ts = inr ts
   /\ Forall (fun t => Spec.in_bounds d t /\ ~ Spec.occupied d t) ts)
  \/ (Py.comprehension (Serializers.validate_ticket d) ts
      = inl Py.ValidationError
      /\ exists t, In t ts /\ ~ (Spec.in_bounds d t /\ ~ Spec.occupied d t)).
Proof.
  induction ts as [|t ts IH]; simpl.
  - left. split; [reflexivity | constructor].
  - destruct (validate_ticket_cases d t) as [Hok | Hbad].
    + rewrite Hok. simpl. apply validate_ticket_ok in Hok.
      destruct IH as [[-> Hall] | (-> & t' & Hin & Hno)]; simpl.
      * left. split; [reflexivity | now constructor].
      * right. split; [reflexivity|]. exists t'. auto.
    + rewrite Hbad. simpl. right. split; [reflexivity|].
      exists t. split; [now left|].
      intros H. apply validate_ticket_ok in H. congruence.
Qed.

(** The ticket row the serializer writes for a requested seat. *)
Lemma slot_of_new_ticket (k pk : Z) (t : Serializers.TicketData) :
  Models.slot {| Models.ticket_id := k;
                 Models.movie_session := Serializers.for_session t;
                 Models.order := pk;
                 Models.row := Serializers.at_row t;
                 Models.seat := Serializers.at_seat t |}
  = Serializers.place t.
Proof. reflexivity. Qed.

Lemma insert_tickets_raises (pk : Z) (ts : list Serializers.TicketData)
      (d : Models.Db) (e : Py.exn) :
  Serializers.insert_tickets pk ts d = inl e -> e = Py.ValidationError.
Proof.
  revert d. induction ts as [|t ts IH]; intros d; simpl.
  - intros [=].
  - destruct (Serializers.taken d t); [now intros [= <-] | apply IH].
Qed.

(** Insertion stops at a seat that is taken, in the database or by an
    earlier ticket of the same order. *)
Lemma insert_tickets_conflict (pk : Z) (ts : list Serializers.TicketData)
      (d : Models.Db) :
  (exists t, In t ts /\ Serializers.taken d t = true)
  \/ ~ NoDup (map Serializers.place ts) ->
  Serializers.insert_tickets pk ts d = inl Py.ValidationError.
Proof.
  revert d. induction ts as [|t ts IH]; intros d H.
  - destruct H as [(t & [] & _) | H]. elim H. constructor.
  - simpl. destruct (Serializers.taken d t) eqn:T; [reflexivity|].
    apply IH.
    set (d' := Serializers.add_ticket _ d).
    assert (Hmono : forall t0, Serializers.taken d t0 = true ->
                               Serializers.taken d' t0 = true).
    { intros t0. rewrite !taken_iff_In. unfold d'. simpl.
      rewrite map_app. intros Hin. apply in_or_app. now left. }
    assert (Hnew : forall t0, Serializers.place t0 = Serializers.place t ->
                              Serializers.taken d' t0 = true).
    { intros t0 E. rewrite taken_iff_In. unfold d'. simpl.
      rewrite map_app. apply in_or_app. right. simpl. left.
      now rewrite slot_of_new_ticket. }
    destruct H as [(t0 & [<- | Hin] & Ht0) | Hdup].
    + congruence.
    + left. exists t0. auto.
    + simpl in Hdup.
      destruct (in_dec (fun a b : Z * Z * Z =>
                          ltac:(repeat decide equality) : {a = b} + {a <> b})
                       (Serializers.place t) (map Serializers.place ts))
        as [Hin | Hnin].
      * apply in_map_iff in Hin. destruct Hin as (t0 & E & Hin).
        left. exists t0. auto.
      * right. intros Hnd. apply Hdup. now constructor.
Qed.

Lemma NoDup_snoc {A} (l : list A) (x : A) :
  NoDup l -> ~ In x l -> NoDup (l ++ [x]).
Proof.
  intros Hl Hx. induction Hl as [|y l Hy Hl IH]; simpl.
  - constructor; [intros [] | constructor].
  - constructor.
    + rewrite in_app_iff. simpl. intros [H | [-> | []]]; auto.
      apply Hx. now left.
    + apply IH. intros H. apply Hx. now right.
Qed.

(** A successful insertion adds one ticket per requested seat, at that
    seat and for the given order, touches no other table, and keeps the
    seats of the database distinct. *)
Lemma insert_tickets_ok (pk : Z) (ts : list Serializers.TicketData)
      (d d' : Models.Db) :
  Serializers.insert_tickets pk ts d = inr d' ->
  Models.orders d' = Models.orders d
  /\ Models.movie_sessions d' = Models.movie_sessions d
  /\ Models.cinema_halls d' = Models.cinema_halls d
  /\ (exists new, Models.tickets d' = (Models.tickets d ++ new)%list
                  /\ map Models.slot new = map Serializers.place ts
                  /\ Forall (fun t => Models.order t = pk) new)
  /\ (Spec.seats_unique d -> Spec.seats_unique d').
Proof.
  revert d. induction ts as [|t ts IH]; intros d; simpl.
  - intros [= <-]. repeat split; auto. exists []. rewrite app_nil_r. auto.
  - destruct (Serializers.taken d t) eqn:T; [intros [=]|].
    assert (Hfree : ~ In (Serializers.place t)
                         (map Models.slot (Models.tickets d)))
      by (rewrite <- taken_iff_In; congruence).
    intros H. apply IH in H.
    destruct H as (Ho & Hs & Hh & (new & Ht & Hm & Hf) & Hu).
    simpl in Ho, Hs, Hh, Ht. repeat split; auto.
    + eexists (_ :: new). rewrite Ht, <- app_assoc. simpl.
      split; [reflexivity|]. split; [now rewrite Hm | now constructor].
    + intros Hd. apply Hu. unfold Spec.seats_unique. simpl.
      rewrite map_app. simpl. apply NoDup_snoc; [exact Hd | exact Hfree].
Qed.

(** Whether the insertion succeeds depends on the tickets present. *)
Lemma insert_tickets_same_tickets (pk : Z) (ts : list Serializers.TicketData)
      (d e d' : Models.Db) :
  Models.tickets d = Models.tickets e ->
  Serializers.insert_tickets pk ts d = inr d' ->
  exists e', Serializers.insert_tickets pk ts e = inr e'.
Proof.
  revert d e. induction ts as [|t ts IH]; intros d e Heq; simpl.
  - intros _. now exists e.
  - assert (Ht : Serializers.taken e t = Serializers.taken d t)
      by (unfold Serializers.taken; now rewrite Heq).
    rewrite Ht. destruct (Serializers.taken d t); [intros [=]|].
    apply IH. simpl. now rewrite Heq.
Qed.

(** Without a conflict the insertion succeeds. *)
Lemma insert_tickets_succeeds (pk : Z) (ts : list Serializers.TicketData)
      (d : Models.Db) :
  (forall t, In t ts -> Serializers.taken d t = false) ->
  NoDup (map Serializers.place ts) ->
  exists d', Serializers.insert_tickets pk ts d = inr d'.
Proof.
  revert d. induction ts as [|t ts IH]; intros d Hfree Hnd; simpl.
  - now exists d.
  - rewrite (Hfree t) by now left.
    simpl in Hnd. inversion Hnd as [|x l Hnin Hnd']; subst.
    apply IH; [|exact Hnd'].
    intros t0 Hin.
    destruct (Serializers.taken _ t0) eqn:T; [|reflexivity].
    exfalso. apply taken_iff_In in T. simpl in T.
    rewrite map_app, in_app_iff in T. destruct T as [T | T].
    + apply taken_iff_In in T. rewrite Hfree in T by now right.
      discriminate.
    + simpl in T. destruct T as [T | []].
      apply Hnin. change (Serializers.place t = Serializers.place t0) in T.
      rewrite T. now apply in_map.
Qed.

(** The steps of [create] once the caller is known and the payload has
    passed validation. *)
Lemma create_validated (request : OrderViewSet.Request)
      (p : Django.Process) (u : Z) :
  OrderViewSet.user request = Some u ->
  Py.comprehension (Serializers.validate_ticket (Django.db p))
                   (Serializers.tickets_data (OrderViewSet.data request))
  = inr (Serializers.tickets_data (OrderViewSet.data request)) ->
  let o := {| Models.order_id :=
                Models.next_id (map Models.order_id
                                    (Models.orders (Django.db p)));
              Models.created_at := OrderViewSet.now request;
              Models.user := u |} in
  OrderViewSet.create request p
  = match Serializers.insert_tickets
            (Models.order_id o)
            (Serializers.tickets_data (OrderViewSet.data request))
            (Serializers.add_order o (Django.db p)) with
    | inl e => (inl e, p)
    | inr d' => (inr o, Django.with_db d' p)
    end.
Proof.
  intros Hu Hv o.
  unfold OrderViewSet.create, Serializers.is_valid. rewrite Hu, Hv.
  cbn [Py.bind Py.ret].
  unfold OrderViewSet.perform_create, Serializers.save, Serializers.create.
  cbn [Serializers.user_key Serializers.tickets_key].
  fold o.
  destruct (Serializers.insert_tickets _ _ _); reflexivity.
Qed.

Lemma create_rejected (request : OrderViewSet.Request)
      (p : Django.Process) (u : Z) :
  OrderViewSet.user request = Some u ->
  Py.comprehension (Serializers.validate_ticket (Django.db p))
                   (Serializers.tickets_data (OrderViewSet.data request))
  = inl Py.ValidationError ->
  OrderViewSet.create request p = (inl Py.ValidationError, p).
Proof.
  intros Hu Hv.
  unfold OrderViewSet.create, Serializers.is_valid. now rewrite Hu, Hv.
Qed.

(** C3 (against the serializer as the specification describes it):
    for an order of an authenticated caller, if a requested seat does
    not exist in the hall of its session, or is taken by a ticket of the
    database, or is requested twice in the payload, the request ends
    with a validation error and the process is as it was; a request of
    seats that exist, are free and are distinct is accepted; an accepted
    request adds exactly the order and one ticket per requested seat,
    all its seats exist, and if no two tickets of the database shared a
    place before, none do after; and no failure changes the process. *)
Theorem order_is_all_or_nothing
        (request : OrderViewSet.Request) (p : Django.Process) (u : Z) :
  OrderViewSet.user request = Some u ->
  let ts := Serializers.tickets_data (OrderViewSet.data request) in
  ((exists t, In t ts /\ ~ Spec.in_bounds (Django.db p) t)
   \/ (exists t, In t ts /\ Spec.occupied (Django.db p) t)
   \/ ~ NoDup (map Serializers.place ts) ->
   OrderViewSet.create request p = (inl Py.ValidationError, p))
  /\ (Forall (Spec.in_bounds (Django.db p)) ts ->
      (forall t, In t ts -> ~ Spec.occupied (Django.db p) t) ->
      NoDup (map Serializers.place ts) ->
      exists o p', OrderViewSet.create request p = (inr o, p'))
  /\ (forall o p',
         OrderViewSet.create request p = (inr o, p') ->
         Forall (Spec.in_bounds (Django.db p)) ts
         /\ Models.orders (Django.db p')
            = (Models.orders (Django.db p) ++ [o])%list
         /\ (exists new,
                Models.tickets (Django.db p')
                = (Models.tickets (Django.db p) ++ new)%list
                /\ map Models.slot new = map Serializers.place ts
                /\ Forall (fun t => Models.order t = Models.order_id o) new)
         /\ (Spec.seats_unique (Django.db p) ->
             Spec.seats_unique (Django.db p')))
  /\ (forall e p', OrderViewSet.create request p = (inl e, p') -> p' = p).
Proof.
  intros Hu ts.
  destruct (validate_all (Django.db p) ts)
    as [[Hv Hall] | (Hv & t & Hin & Hbad)].
  - pose proof (create_validated request p u Hu Hv) as Hc.
    cbv zeta in Hc. fold ts in Hc.
    set (o := {| Models.order_id := _; Models.created_at := _;
                 Models.user := u |}) in Hc.
    rewrite Hc. clear Hc.
    split; [|split; [|split]].
    + intros [(t & Hin & Hno) | [(t & Hin & Hocc) | Hdup]].
      * rewrite Forall_forall in Hall. elim Hno. now apply Hall.
      * rewrite Forall_forall in Hall. now elim (proj2 (Hall t Hin)).
      * rewrite (insert_tickets_conflict _ ts _ (or_intror Hdup)).
        reflexivity.
    + intros _ Hfree Hnd.
      destruct (insert_tickets_succeeds (Models.order_id o) ts
                  (Serializers.add_order o (Django.db p))) as [d' ->];
        [|exact Hnd|now eexists; eexists].
      intros t Hin.
      destruct (Serializers.taken _ t) eqn:T; [|reflexivity].
      elim (Hfree t Hin). apply taken_iff in T.
      destruct T as (t' & Ht' & E). exists t'. auto.
    + intros o' p'.
      destruct (Serializers.insert_tickets _ ts _) as [e|d'] eqn:Hi;
        [intros [=]|].
      intros [= <- <-].
      apply insert_tickets_ok in Hi.
      destruct Hi as (Ho & _ & _ & Hnew & Huniq).
      split; [|split; [|split]].
      * eapply Forall_impl; [|exact Hall]. now intros a [Ha _].
      * exact Ho.
      * exact Hnew.
      * exact Huniq.
    + intros e p'.
      destruct (Serializers.insert_tickets _ ts _); now intros [= _ <-].
  - rewrite (create_rejected request p u Hu Hv).
    split; [|split; [|split]].
    + reflexivity.
    + intros Hb Hfree _. elim Hbad. rewrite Forall_forall in Hb. auto.
    + intros o p' [=].
    + now intros e p' [= _ <-].
Qed.

Lemma order_is_all_or_nothing_witness :
  OrderViewSet.create (Sample.order_by 7 None [(3, 3); (6, 3)]) Sample.server
  = (inl Py.ValidationError, Sample.server)
  /\ OrderViewSet.create (Sample.order_by 7 None [(2, 5); (2, 5)])
                         Sample.server
     = (inl Py.ValidationError, Sample.server).
Proof.
  split.
  - apply (proj1 (order_is_all_or_nothing
                    (Sample.order_by 7 None [(3, 3); (6, 3)])
                    Sample.server 7 eq_refl)).
    left.
    exists {| Serializers.for_session := 1; Serializers.at_row := 6;
              Serializers.at_seat := 3 |}.
    split; [simpl; tauto|].
    intros (h & Hh & Hrow & _). vm_compute in Hh.
    injection Hh as <-. simpl in Hrow. lia.
  - apply (proj1 (order_is_all_or_nothing
                    (Sample.order_by 7 None [(2, 5); (2, 5)])
                    Sample.server 7 eq_refl)).
    right. right. intros H. simpl in H.
    inversion H as [|x l Hnin _]. apply Hnin. now left.
Defined.

(** Validation looks at the tickets of the payload only. *)
Lemma is_valid_tickets (d : Models.Db) (a b : Serializers.OrderData) :
  Serializers.tickets_data a = Serializers.tickets_data b ->
  forall v, Serializers.is_valid d a = inr v ->
            Serializers.is_valid d b
            = inr {| Serializers.user_key := Serializers.claimed_user b;
                     Serializers.tickets_key := Serializers.tickets_key v |}.
Proof.
  intros E v. unfold Serializers.is_valid. rewrite E.
  destruct (Py.comprehension _ _) as [e|ts]; cbn [Py.bind Py.ret];
    [intros [=] | now intros [= <-]].
Qed.

(** C5: the owner of a created order is the authenticated caller,
    whatever the payload says.  If a request of caller [u1] is accepted
    and creates order [o1], then [o1] belongs to [u1] and is the order
    appended to the table; and a request of caller [u2] with the same
    tickets, made in the same state, is accepted as well and creates an
    order that belongs to [u2], whatever either payload carries under
    [user]. *)
Theorem order_owner_is_the_caller
        (r1 r2 : OrderViewSet.Request) (p : Django.Process) (u1 u2 : Z) :
  OrderViewSet.user r1 = Some u1 ->
  OrderViewSet.user r2 = Some u2 ->
  Serializers.tickets_data (OrderViewSet.data r1)
  = Serializers.tickets_data (OrderViewSet.data r2) ->
  forall o1 p1,
    OrderViewSet.create r1 p = (inr o1, p1) ->
    Models.user o1 = u1
    /\ Models.orders (Django.db p1)
       = (Models.orders (Django.db p) ++ [o1])%list
    /\ exists o2 p2,
         OrderViewSet.create r2 p = (inr o2, p2)
         /\ Models.user o2 = u2
         /\ Models.orders (Django.db p2)
            = (Models.orders (Django.db p) ++ [o2])%list.
Proof.
  intros H1 H2 Ets o1 p1.
  unfold OrderViewSet.create. rewrite H1, H2.
  destruct (Serializers.is_valid (Django.db p) (OrderViewSet.data r1))
    as [e|v] eqn:Hv; [intros [=]|].
  rewrite (is_valid_tickets _ _ _ Ets v Hv).
  unfold OrderViewSet.perform_create, Serializers.save, Serializers.create.
  cbn [Serializers.user_key Serializers.tickets_key Py.bind Py.ret
       Models.order_id].
  set (pk := Models.next_id _).
  destruct (Serializers.insert_tickets pk (Serializers.tickets_key v)
              (Serializers.add_order
                 {| Models.order_id := pk;
                    Models.created_at := OrderViewSet.now r1;
                    Models.user := u1 |} (Django.db p)))
    as [e|d1] eqn:Hi1; cbn [Py.bind Py.ret]; [intros [=]|].
  intros [= <- <-].
  destruct (insert_tickets_same_tickets pk (Serializers.tickets_key v)
              (Serializers.add_order
                 {| Models.order_id := pk;
                    Models.created_at := OrderViewSet.now r1;
                    Models.user := u1 |} (Django.db p))
              (Serializers.add_order
                 {| Models.order_id := pk;
                    Models.created_at := OrderViewSet.now r2;
                    Models.user := u2 |} (Django.db p))
              d1 eq_refl Hi1) as [d2 Hi2].
  rewrite Hi2. cbn [Py.bind Py.ret].
  apply insert_tickets_ok in Hi1. apply insert_tickets_ok in Hi2.
  split; [reflexivity|]. split; [apply Hi1|].
  eexists. eexists. split; [reflexivity|].
  split; [reflexivity | apply Hi2].
Qed.

Lemma order_owner_is_the_caller_witness :
  exists o1 p1 o2 p2,
    OrderViewSet.create (Sample.order_by 7 (Some 8) [(3, 3)]) Sample.server
    = (inr o1, p1)
    /\ OrderViewSet.create (Sample.order_by 8 (Some 7) [(3, 3)]) Sample.server
       = (inr o2, p2)
    /\ Models.user o1 = 7 /\ Models.user o2 = 8.
Proof.
  destruct (order_owner_is_the_caller
              (Sample.order_by 7 (Some 8) [(3, 3)])
              (Sample.order_by 8 (Some 7) [(3, 3)])
              Sample.server 7 8 eq_refl eq_refl eq_refl
              _ _ eq_refl) as (Ho1 & _ & o2 & p2 & Hc & Ho2 & _).
  do 4 eexists. split; [reflexivity|]. split; [exact Hc|].
  split; [exact Ho1 | exact Ho2].
Defined.

(* ================================================================= *)
(** * Further properties of the handlers                              *)
(* ================================================================= *)

(** ** [_params_to_ints] *)

(** X1: [_params_to_ints] reads back a list of integers written in
    decimal and joined by commas: for every non-empty list of integers
    that [int()] converts, negative ones included, that is of no more
    than 4300 digits each, the text made of their decimal forms
    separated by commas is converted to that list. *)
Theorem params_to_ints_reads_decimal_lists (ids : list Z) :
  ids <> [] ->
  Forall (fun n => Z.abs n < 10 ^ 4300) ids ->
  MovieViewSet._params_to_ints (String.concat "," (map Decimal.write ids))
  = inr ids.
Proof.
  intros Hne Hall. apply params_to_ints_of_decimals; assumption.
Qed.

Lemma params_to_ints_reads_decimal_lists_witness :
  MovieViewSet._params_to_ints "3,12,-7,0" = inr [3; 12; -7; 0].
Proof.
  apply (params_to_ints_reads_decimal_lists [3; 12; -7; 0]).
  - discriminate.
  - repeat constructor; apply small_is_convertible; simpl; lia.
Defined.

(** The limit is met: a numeral of 4301 digits is refused. *)
Example int_refuses_4301_digits :
  Py.int (String.concat EmptyString (repeat "1" 4301)) = inl Py.ValueError
  /\ exists n,
      Py.int (String.concat EmptyString (repeat "1" 4300)) = inr n.
Proof.
  split; [vm_compute; reflexivity|].
  eexists. vm_compute. reflexivity.
Qed.

Lemma length_split (s : string) :
  List.length (Py.split "," s)
  = S (count_occ ascii_dec (list_ascii_of_string s) ","%char).
Proof.
  induction s as [|c s IH]; [reflexivity|].
  cbn [Py.split list_ascii_of_string count_occ].
  destruct (Ascii.eqb_spec c ","%char) as [-> | Hne].
  - destruct (ascii_dec "," ","); [|congruence]. simpl. now rewrite IH.
  - destruct (ascii_dec c ","); [congruence|].
    destruct (Py.split "," s) as [|w ws]; [discriminate IH|]. exact IH.
Qed.

(** X2: [_params_to_ints] converts all of its text or none of it.
    Either every comma-separated token is an integer and the result
    holds their values in the order written, one per token, so that it
    is never empty and has one element more than the text has commas;
    or a token is not an integer and the call raises [ValueError]. *)
Theorem params_to_ints_all_or_nothing (qs : string) :
  (exists ids,
      MovieViewSet._params_to_ints qs = inr ids
      /\ map Py.parse_int (Py.split "," qs) = map Some ids
      /\ List.length ids
         = S (count_occ ascii_dec (list_ascii_of_string qs) ","%char))
  \/ (MovieViewSet._params_to_ints qs = inl Py.ValueError
      /\ exists tok, In tok (Py.split "," qs) /\ Py.parse_int tok = None).
Proof.
  unfold MovieViewSet._params_to_ints.
  destruct (comprehension_int (Py.split "," qs))
    as [(ids & H & Hm) | [H Hbad]].
  - left. exists ids. split; [exact H|]. split; [exact Hm|].
    rewrite <- length_split.
    rewrite <- (length_map Some ids), <- Hm. apply length_map.
  - right. split; assumption.
Qed.

(** ** [MovieViewSet]: what the filters depend on *)

Lemma id__in_same_ids (links : list (Z * Z)) (l l' : list Z)
      (qs : list Models.Movie) :
  (forall i, In i l <-> In i l') ->
  MovieViewSet.id__in links l qs = MovieViewSet.id__in links l' qs.
Proof.
  intros H. unfold MovieViewSet.id__in.
  apply flat_map_ext. intros m. f_equal. apply filter_ext. intros [k i].
  f_equal. simpl.
  destruct (existsb (Z.eqb i) l) eqn:E, (existsb (Z.eqb i) l') eqn:E';
    try reflexivity; exfalso.
  - apply existsb_exists in E. destruct E as (j & Hj & Hij).
    apply Z.eqb_eq in Hij. subst j. apply H in Hj.
    assert (X : existsb (Z.eqb i) l' = true)
      by (apply existsb_exists; exists i; split; [exact Hj | apply Z.eqb_refl]).
    congruence.
  - apply existsb_exists in E'. destruct E' as (j & Hj & Hij).
    apply Z.eqb_eq in Hij. subst j. apply H in Hj.
    assert (X : existsb (Z.eqb i) l = true)
      by (apply existsb_exists; exists i; split; [exact Hj | apply Z.eqb_refl]).
    congruence.
Qed.

Lemma relation_block_same_ids (p p' : option string)
      (ids ids' : option (list Z)) (links : list (Z * Z))
      (qs : list Models.Movie) :
  Spec.reads_as p ids -> Spec.reads_as p' ids' -> Spec.same_ids ids ids' ->
  match Py.truthy p with
  | Some s =>
      l <- MovieViewSet._params_to_ints s ;;
      Py.ret (MovieViewSet.id__in links l qs)
  | None => Py.ret qs
  end
  = match Py.truthy p' with
    | Some s =>
        l <- MovieViewSet._params_to_ints s ;;
        Py.ret (MovieViewSet.id__in links l qs)
    | None => Py.ret qs
    end.
Proof.
  destruct ids as [l|], ids' as [l'|]; simpl; try contradiction.
  - intros (s & Hg & Hl) (s' & Hg' & Hl') H.
    rewrite (truthy_given _ _ Hg), (truthy_given _ _ Hg'), Hl, Hl'.
    cbn [Py.bind]. now rewrite (id__in_same_ids links l l' qs H).
  - intros Hb Hb' _. now rewrite (truthy_blank _ Hb), (truthy_blank _ Hb').
Qed.

(** X3: the movie list depends on the [title] parameter up to the case
    of its ASCII letters, and on the [genres] and [actors] parameters
    through the set of ids they list: two query strings whose titles
    fold to the same text and whose id lists have the same members, in
    whatever order and however often repeated, give the same list. *)
Theorem movies_list_depends_on_case_folded_title_and_id_sets
        (q q' : QueryDict.t) (d : Models.Db)
        (genres genres' actors actors' : option (list Z)) :
  Spec.same_title (QueryDict.get "title" q) (QueryDict.get "title" q') ->
  Spec.reads_as (QueryDict.get "genres" q) genres ->
  Spec.reads_as (QueryDict.get "genres" q') genres' ->
  Spec.same_ids genres genres' ->
  Spec.reads_as (QueryDict.get "actors" q) actors ->
  Spec.reads_as (QueryDict.get "actors" q') actors' ->
  Spec.same_ids actors actors' ->
  MovieViewSet.get_queryset q d = MovieViewSet.get_queryset q' d.
Proof.
  intros Ht Hg Hg' Sg Ha Ha' Sa. unfold MovieViewSet.get_queryset.
  assert (Et : match Py.truthy (QueryDict.get "title" q) with
               | Some t =>
                   filter (MovieViewSet.title__icontains t) (Models.movies d)
               | None => Models.movies d
               end
               = match Py.truthy (QueryDict.get "title" q') with
                 | Some t =>
                     filter (MovieViewSet.title__icontains t)
                            (Models.movies d)
                 | None => Models.movies d
                 end).
  { destruct Ht as [[Hb Hb'] | (t & t' & Hgt & Hgt' & E)].
    - now rewrite (truthy_blank _ Hb), (truthy_blank _ Hb').
    - rewrite (truthy_given _ _ Hgt), (truthy_given _ _ Hgt').
      apply filter_ext. intros m. unfold MovieViewSet.title__icontains.
      now rewrite E. }
  rewrite Et.
  rewrite (relation_block_same_ids _ _ _ _ (Models.movie_genres d) _
             Hg Hg' Sg).
  destruct (match Py.truthy (QueryDict.get "genres" q') with
            | Some s => _ | None => _ end) as [e|qg]; [reflexivity|].
  cbn [Py.bind].
  now rewrite (relation_block_same_ids _ _ _ _ (Models.movie_actors d) qg
                 Ha Ha' Sa).
Qed.

Lemma movies_list_depends_on_case_folded_title_and_id_sets_witness :
  MovieViewSet.get_queryset [("title", "IN"); ("genres", "1,2")]
                            Sample.cinema
  = MovieViewSet.get_queryset [("genres", "2,1,1"); ("title", "in")]
                              Sample.cinema.
Proof.
  apply (movies_list_depends_on_case_folded_title_and_id_sets
           [("title", "IN"); ("genres", "1,2")]
           [("genres", "2,1,1"); ("title", "in")]
           Sample.cinema (Some [1; 2]) (Some [2; 1; 1]) None None).
  - right. exists "IN", "in".
    split; [split; [reflexivity | discriminate]|].
    split; [split; [reflexivity | discriminate] | reflexivity].
  - exists "1,2". split; [split; [reflexivity | discriminate] | reflexivity].
  - exists "2,1,1".
    split; [split; [reflexivity | discriminate] | reflexivity].
  - simpl. intros i. tauto.
  - now right.
  - now right.
  - exact I.
Defined.

(** ** [MovieViewSet]: one movie *)

(** The rows of the movie query are movies of the table that pass the
    title filter, each once. *)
Lemma movie_queryset_rows (q : QueryDict.t) (d : Models.Db)
      (l : list Models.Movie) :
  MovieViewSet.get_queryset q d = inr l ->
  NoDup l
  /\ forall m, In m l ->
               In m (Models.movies d)
               /\ Spec.title_matches (QueryDict.get "title" q) m.
Proof.
  unfold MovieViewSet.get_queryset.
  set (titled := match Py.truthy (QueryDict.get "title" q) with
                 | Some t => _ | None => _ end).
  assert (Ht : forall m, In m titled ->
                         In m (Models.movies d)
                         /\ Spec.title_matches (QueryDict.get "title" q) m)
    by (intros m; apply title_block).
  assert (Hstep : forall (p : option string) links qs r,
             match Py.truthy p with
             | Some s =>
                 ids <- MovieViewSet._params_to_ints s ;;
                 Py.ret (MovieViewSet.id__in links ids qs)
             | None => Py.ret qs
             end = inr r ->
             forall m, In m r -> In m qs).
  { intros p links qs r. destruct (Py.truthy p) as [s|].
    - destruct (MovieViewSet._params_to_ints s) as [e|ids];
        cbn [Py.bind Py.ret]; [intros [=]|].
      intros [= <-] m Hm. now apply In_id__in in Hm.
    - now intros [= <-]. }
  destruct (match Py.truthy (QueryDict.get "genres" q) with
            | Some s => _ | None => _ end) as [e|qg] eqn:Eg;
    cbn [Py.bind]; [intros [=]|].
  destruct (match Py.truthy (QueryDict.get "actors" q) with
            | Some s => _ | None => _ end) as [e|qa] eqn:Ea;
    cbn [Py.bind Py.ret]; [intros [=]|].
  intros [= <-]. split; [apply NoDup_nodup|].
  intros m Hm. unfold MovieViewSet.distinct in Hm. apply nodup_In in Hm.
  apply Ht. eapply Hstep; [exact Eg|]. eapply Hstep; [exact Ea|]. exact Hm.
Qed.

Lemma key_is_injective {A} (f : A -> Z) (l : list A) (x y : A) :
  NoDup (map f l) -> In x l -> In y l -> f x = f y -> x = y.
Proof.
  induction l as [|a l IH]; simpl; [contradiction|].
  intros Hnd Hx Hy E. inversion Hnd as [|k ks Hnin Hnd']; subst.
  destruct Hx as [-> | Hx], Hy as [-> | Hy]; auto.
  - elim Hnin. rewrite E. now apply in_map.
  - elim Hnin. rewrite <- E. now apply in_map.
Qed.

(** Rows with distinct keys: at most one answers to a key. *)
Lemma filter_by_key {A} (f : A -> Z) (pk : Z) (l : list A) :
  NoDup l ->
  (forall x y, In x l -> In y l -> f x = f y -> x = y) ->
  filter (fun a => f a =? pk) l = []
  \/ exists a, filter (fun a => f a =? pk) l = [a].
Proof.
  induction l as [|a l IH]; intros Hnd Hinj; [now left|].
  inversion Hnd as [|a' l' Hnin Hnd']; subst.
  assert (Hinj' : forall x y, In x l -> In y l -> f x = f y -> x = y)
    by (intros x y Hx Hy; apply Hinj; now right).
  simpl. destruct (Z.eqb_spec (f a) pk) as [E | _]; [|now apply IH].
  right. exists a. f_equal.
  destruct (filter (fun b => f b =? pk) l) as [|b bs] eqn:F; [reflexivity|].
  exfalso.
  assert (Hb : In b (filter (fun b => f b =? pk) l))
    by (rewrite F; now left).
  apply filter_In in Hb. destruct Hb as [Hb Eb]. apply Z.eqb_eq in Eb.
  apply Hnin. rewrite (Hinj a b); auto; [now left | now right | congruence].
Qed.

(** What [get_object] finds among the rows of a list. *)
Lemma movie_retrieve_agrees_with_list_aux
      (q : QueryDict.t) (pk : Z) (d : Models.Db) (l : list Models.Movie) :
  NoDup (map Models.movie_id (Models.movies d)) ->
  MovieViewSet.get_queryset q d = inr l ->
  (forall m, MovieViewSet.retrieve q pk d = inr m
             <-> In m l /\ Models.movie_id m = pk)
  /\ ((forall m, In m l -> Models.movie_id m <> pk) ->
      MovieViewSet.retrieve q pk d = inl (Shortcuts.Raised Py.Http404)).
Proof.
  intros Hkeys Hl. unfold MovieViewSet.retrieve, MovieViewSet.get_object.
  rewrite Hl.
  destruct (movie_queryset_rows q d l Hl) as [Hnd Hrows].
  assert (Hinj : forall x y, In x l -> In y l ->
                             Models.movie_id x = Models.movie_id y -> x = y).
  { intros x y Hx Hy. apply (key_is_injective _ _ _ _ Hkeys);
      now apply Hrows. }
  assert (Hf : forall m, In m (filter (fun m => Models.movie_id m =? pk) l)
                         <-> In m l /\ Models.movie_id m = pk)
    by (intros m; rewrite filter_In, Z.eqb_eq; reflexivity).
  destruct (filter_by_key Models.movie_id pk l Hnd Hinj) as [F | [a F]];
    rewrite F in *; cbn [Shortcuts.get_object_or_404].
  - split.
    + intros m. split; [intros [=]|]. intros H. apply Hf in H. contradiction.
    + reflexivity.
  - split.
    + intros m. rewrite <- Hf. simpl. split.
      * intros [= ->]. now left.
      * intros [-> | []]. reflexivity.
    + intros Hno. exfalso. apply (Hno a); apply Hf; now left.
Qed.

(** X4: [retrieve] looks the movie up among the rows of the list, so
    the filters of the query string apply to it.  With distinct movie
    keys: an exception of the list is the exception of [retrieve];
    otherwise [retrieve] returns a movie exactly when that movie is in
    the list and has the key, and answers 404 when no movie of the list
    has the key, be there one in the table or not. *)
Theorem movie_retrieve_agrees_with_list
        (q : QueryDict.t) (pk : Z) (d : Models.Db) :
  NoDup (map Models.movie_id (Models.movies d)) ->
  (forall e, MovieViewSet.get_queryset q d = inl e ->
             MovieViewSet.retrieve q pk d = inl (Shortcuts.Raised e))
  /\ (forall l,
         MovieViewSet.get_queryset q d = inr l ->
         (forall m, MovieViewSet.retrieve q pk d = inr m
                    <-> In m l /\ Models.movie_id m = pk)
         /\ ((forall m, In m l -> Models.movie_id m <> pk) ->
             MovieViewSet.retrieve q pk d
             = inl (Shortcuts.Raised Py.Http404))).
Proof.
  intros Hkeys. split.
  - unfold MovieViewSet.retrieve, MovieViewSet.get_object. now intros e ->.
  - intros l Hl. now apply movie_retrieve_agrees_with_list_aux.
Qed.

Lemma movie_retrieve_agrees_with_list_witness :
  MovieViewSet.retrieve [("title", "zzz")] 1 Sample.cinema
  = inl (Shortcuts.Raised Py.Http404)
  /\ MovieViewSet.retrieve [("genres", "1,x")] 1 Sample.cinema
     = inl (Shortcuts.Raised Py.ValueError).
Proof.
  assert (Hk : NoDup (map Models.movie_id (Models.movies Sample.cinema))).
  { simpl. repeat constructor; simpl; intuition discriminate. }
  split.
  - apply (proj2 (proj2 (movie_retrieve_agrees_with_list
                           [("title", "zzz")] 1 Sample.cinema Hk)
                        [] eq_refl)).
    intros m [].
  - apply (proj1 (movie_retrieve_agrees_with_list
                    [("genres", "1,x")] 1 Sample.cinema Hk)).
    reflexivity.
Defined.

(** ** [MovieViewSet.upload_image] *)

(** X5: [upload_image] reaches its movie through [get_object], so it
    fails as [retrieve] fails and saves nothing then; for the movie
    found, an upload the serializer rejects is answered 400 and saves
    nothing, one it accepts is answered 200 and saved once.  In
    particular, with distinct movie keys, a movie of the table that the
    [title] parameter of the query string excludes is answered 404 and
    keeps its image, valid upload or not. *)
Theorem upload_image_goes_through_the_filters
        (Upload Errors Image : Type)
        (is_valid : Models.Movie -> Upload -> Errors + Image)
        (save : Models.Movie -> Image -> Models.Db -> Models.Db)
        (q : QueryDict.t) (pk : Z) (data : Upload) (d : Models.Db) :
  NoDup (map Models.movie_id (Models.movies d)) ->
  (forall e, MovieViewSet.retrieve q pk d = inl e ->
             MovieViewSet.upload_image Upload Errors Image is_valid save
                                       q pk data d
             = (inl e, d))
  /\ (forall m errors,
         MovieViewSet.retrieve q pk d = inr m ->
         is_valid m data = inl errors ->
         MovieViewSet.upload_image Upload Errors Image is_valid save
                                   q pk data d
         = (inr (Shortcuts.HTTP_400_BAD_REQUEST errors), d))
  /\ (forall m image,
         MovieViewSet.retrieve q pk d = inr m ->
         is_valid m data = inr image ->
         MovieViewSet.upload_image Upload Errors Image is_valid save
                                   q pk data d
         = (inr (Shortcuts.HTTP_200_OK (m, image)), save m image d))
  /\ (forall l m t,
         MovieViewSet.get_queryset q d = inr l ->
         In m (Models.movies d) -> Models.movie_id m = pk ->
         Spec.given (QueryDict.get "title" q) t ->
         MovieViewSet.title__icontains t m = false ->
         MovieViewSet.upload_image Upload Errors Image is_valid save
                                   q pk data d
         = (inl (Shortcuts.Raised Py.Http404), d)).
Proof.
  intros Hkeys. unfold MovieViewSet.upload_image, MovieViewSet.retrieve.
  split; [now intros e ->|].
  split; [now intros m errors -> ->|].
  split; [now intros m image -> ->|].
  intros l m t Hl Hm Hpk Ht Hno.
  destruct (movie_retrieve_agrees_with_list_aux q pk d l Hkeys Hl)
    as [_ H404].
  unfold MovieViewSet.retrieve in H404. rewrite H404; [reflexivity|].
  intros x Hx Ex.
  destruct (movie_queryset_rows q d l Hl) as [_ Hrows].
  destruct (Hrows x Hx) as [Hxin Hxt].
  assert (x = m)
    by (apply (key_is_injective Models.movie_id (Models.movies d));
        auto; congruence).
  subst x. specialize (Hxt t Ht).
  unfold MovieViewSet.title__icontains in Hno. congruence.
Qed.

Lemma upload_image_goes_through_the_filters_witness :
  MovieViewSet.upload_image
    string string string
    (fun _ file => match file with
                   | EmptyString => inl "No file was submitted."
                   | _ => inr file
                   end)
    (fun _ _ d => d)
    [("title", "zzz")] 1 "poster.png" Sample.cinema
  = (inl (Shortcuts.Raised Py.Http404), Sample.cinema).
Proof.
  assert (Hk : NoDup (map Models.movie_id (Models.movies Sample.cinema))).
  { simpl. repeat constructor; simpl; intuition discriminate. }
  refine (proj2 (proj2 (proj2
            (upload_image_goes_through_the_filters
               string string string _ _
               [("title", "zzz")] 1 "poster.png" Sample.cinema Hk)))
            [] (nth 0 (Models.movies Sample.cinema)
                    {| Models.movie_id := 0; Models.title := "none";
                       Models.description := "none";
                       Models.duration := 0 |})
            "zzz" eq_refl _ eq_refl _ eq_refl).
  - simpl. tauto.
  - split; [reflexivity | discriminate].
Defined.

(** ** [MovieSessionViewSet]: the rows of the query *)

Lemma NoDup_of_keys {A} (f : A -> Z) (l : list A) :
  NoDup (map f l) -> NoDup l.
Proof.
  induction l as [|a l IH]; simpl; intros H; [constructor|].
  inversion H as [|k ks Hnin Hnd]; subst. constructor; [|now apply IH].
  intros Ha. apply Hnin. now apply in_map.
Qed.

Lemma filter_finds_the_key {A} (f : A -> Z) (l : list A) (x : A) :
  NoDup (map f l) -> In x l -> filter (fun a => f a =? f x) l = [x].
Proof.
  intros Hk Hx.
  assert (Hin : In x (filter (fun a => f a =? f x) l))
    by (apply filter_In; split; [exact Hx | apply Z.eqb_refl]).
  destruct (filter_by_key f (f x) l (NoDup_of_keys f l Hk)) as [F | [a F]].
  - intros a b Ha Hb. now apply (key_is_injective f l).
  - rewrite F in Hin. contradiction.
  - rewrite F in Hin |- *. destruct Hin as [-> | []]. reflexivity.
Qed.

(** The sessions of the rows, in the order the model lists them. *)
Lemma sessions_of_annotated (d : Models.Db) :
  Spec.halls_consistent d ->
  map Django.session (MovieSessionViewSet.annotated d)
  = Models.movie_sessions d.
Proof.
  intros [Hkeys Hhall]. unfold MovieSessionViewSet.annotated.
  induction (Models.movie_sessions d) as [|s l IH]; [reflexivity|].
  cbn [flat_map].
  rewrite map_app, IH by (intros x Hx; apply Hhall; now right).
  destruct (Hhall s (or_introl eq_refl)) as (h & Hh & E).
  rewrite <- E, (filter_finds_the_key Models.hall_id _ h Hkeys Hh).
  reflexivity.
Qed.

(** X6: the annotated query has one row per session.  When halls
    have distinct keys and every session's hall exists, the sessions of
    the rows are the sessions of the table, each as often as the table
    has it, however many tickets it has (in whatever order the rows
    come), and the hall of a row is the hall of its session. *)
Theorem session_query_has_one_row_per_session (d : Models.Db) :
  Spec.halls_consistent d ->
  Permutation (map Django.session (MovieSessionViewSet.annotated d))
              (Models.movie_sessions d)
  /\ forall r, In r (MovieSessionViewSet.annotated d) ->
               In (Django.hall r) (Models.cinema_halls d)
               /\ Models.hall_id (Django.hall r)
                  = Models.cinema_hall (Django.session r).
Proof.
  intros H. split.
  - rewrite (sessions_of_annotated d H). apply Permutation_refl.
  - intros r Hr. apply annotated_row in Hr. tauto.
Qed.

Lemma session_query_has_one_row_per_session_witness :
  Spec.halls_consistent Sample.cinema
  /\ Permutation
       (map Django.session (MovieSessionViewSet.annotated Sample.cinema))
       (Models.movie_sessions Sample.cinema)
  /\ forall r, In r (MovieSessionViewSet.annotated Sample.cinema) ->
               In (Django.hall r) (Models.cinema_halls Sample.cinema)
               /\ Models.hall_id (Django.hall r)
                  = Models.cinema_hall (Django.session r).
Proof.
  assert (H : Spec.halls_consistent Sample.cinema).
  { split.
    - simpl. repeat constructor. simpl. tauto.
    - intros s Hs.
      exists {| Models.hall_id := 1; Models.hall_name := "Blue";
                Models.rows := 5; Models.seats_in_row := 10 |}.
      simpl in Hs. destruct Hs as [<- | [<- | []]];
        (split; [simpl; tauto | reflexivity]). }
  split; [exact H|].
  exact (session_query_has_one_row_per_session Sample.cinema H).
Defined.

(** X7: a session list with a [date] or a [movie] parameter that can
    be read (or both) is answered from the database of the moment and
    leaves the process as it is, whatever rows the class attribute has
    cached: the rows are exactly those of the annotated query whose
    session is on that day, if a day is given, and shows that movie, if
    a movie is given. *)
Theorem filtered_session_list_is_exact_and_current
        (q : QueryDict.t) (p : Django.Process)
        (day : option Py.date) (key : option Z) :
  Spec.reads_as_date (QueryDict.get "date" q) day ->
  Spec.reads_as_int (QueryDict.get "movie" q) key ->
  day <> None \/ key <> None ->
  exists rows,
    MovieSessionViewSet.list q p = (inr rows, p)
    /\ forall r, In r rows
                 <-> In r (MovieSessionViewSet.annotated (Django.db p))
                     /\ Spec.wanted day key (Django.session r).
Proof.
  intros Hd Hm Hsome.
  assert (Hws : exists ws,
             MovieSessionViewSet.get_queryset q
             = inr (MovieSessionViewSet.clone ws)
             /\ forall r, Forall (Spec.meets r) ws
                          <-> Spec.wanted day key (Django.session r)).
  { unfold MovieSessionViewSet.get_queryset, Spec.wanted.
    destruct day as [d0|], key as [n|]; simpl in Hd, Hm.
    - destruct Hd as (sd & Hgd & Hp), Hm as (sm & Hgm & Hn).
      apply int_inr in Hn.
      rewrite (truthy_given _ _ Hgd), Hp, (truthy_given _ _ Hgm), Hn.
      eexists. split; [reflexivity|]. intros r. split.
      + intros H. inversion H as [|x l H1 H2]; subst.
        inversion H2 as [|y l' H3 _]; subst. simpl in H1, H3.
        split; [now intros d' [= <-] | now intros n' [= <-]].
      + intros [H1 H2]. repeat constructor; simpl; auto.
    - destruct Hd as (sd & Hgd & Hp).
      rewrite (truthy_given _ _ Hgd), Hp, (truthy_blank _ Hm).
      eexists. split; [reflexivity|]. intros r. split.
      + intros H. inversion H as [|x l H1 _]; subst. simpl in H1.
        split; [now intros d' [= <-] | intros n' [=]].
      + intros [H1 _]. repeat constructor; simpl; auto.
    - destruct Hm as (sm & Hgm & Hn). apply int_inr in Hn.
      rewrite (truthy_blank _ Hd), (truthy_given _ _ Hgm), Hn.
      eexists. split; [reflexivity|]. intros r. split.
      + intros H. inversion H as [|x l H1 _]; subst. simpl in H1.
        split; [intros d' [=] | now intros n' [= <-]].
      + intros [_ H2]. repeat constructor; simpl; auto.
    - destruct Hsome as [H | H]; congruence. }
  destruct Hws as (ws & Hq & Hmeets).
  eexists. split; [apply list_with_a_filter; exact Hq|].
  intros r. rewrite execute_row, Hmeets. reflexivity.
Qed.

Lemma filtered_session_list_is_exact_and_current_witness :
  exists rows,
    MovieSessionViewSet.list [("date", "2024-10-11"); ("movie", "2")]
                             Sample.then_ordered
    = (inr rows, Sample.then_ordered).
Proof.
  destruct (filtered_session_list_is_exact_and_current
              [("date", "2024-10-11"); ("movie", "2")] Sample.then_ordered
              (Some {| Py.year := 2024; Py.month := 10; Py.day := 11 |})
              (Some 2))
    as (rows & H & _).
  - exists "2024-10-11".
    split; [split; [reflexivity | discriminate] | reflexivity].
  - exists "2". split; [split; [reflexivity | discriminate] | reflexivity].
  - left. discriminate.
  - exists rows. exact H.
Defined.

(** ** [MovieSessionViewSet]: the seats left *)

Lemma In_upto (n x : Z) : In x (Spec.upto n) <-> 1 <= x <= n.
Proof.
  unfold Spec.upto. rewrite in_map_iff. split.
  - intros (i & <- & Hi). apply in_seq in Hi. lia.
  - intros H. exists (Z.to_nat (x - 1)). split; [lia|].
    apply in_seq. lia.
Qed.

Lemma length_upto (n : Z) : List.length (Spec.upto n) = Z.to_nat n.
Proof. unfold Spec.upto. now rewrite length_map, length_seq. Qed.

Lemma distinct_keys_survive_filter {Row Key : Type} (key : Row -> Key)
      (rows : list Row) (keep : Row -> bool) :
  NoDup (map key rows) -> NoDup (map key (filter keep rows)).
Proof.
  intros Hrows. induction rows as [|r rows IH]; [constructor|].
  simpl in Hrows. apply NoDup_cons_iff in Hrows.
  destruct Hrows as [Hfresh Hrest]. simpl.
  destruct (keep r); [|now apply IH].
  simpl. apply NoDup_cons; [|now apply IH].
  rewrite in_map_iff. intros (r' & Hkey & Hkept).
  apply filter_In in Hkept. apply Hfresh.
  rewrite <- Hkey. apply in_map. apply Hkept.
Qed.

(** No more tickets than seats: tickets of one session that sit on
    distinct seats of a hall are at most as many as the hall has
    seats. *)
Lemma sold_le_capacity (d : Models.Db) (s : Models.MovieSession)
      (h : Models.CinemaHall) :
  Spec.seats_unique d -> Spec.seated_in d s h ->
  0 <= Models.rows h -> 0 <= Models.seats_in_row h ->
  Spec.sold d s <= Spec.capacity h.
Proof.
  intros Hu Hs Hr Hc. unfold Spec.sold, Spec.capacity.
  set (ts := filter (fun t => Models.movie_session t =? Models.session_id s)
                    (Models.tickets d)).
  assert (Hts : forall t, In t ts ->
                          In t (Models.tickets d)
                          /\ Models.movie_session t = Models.session_id s).
  { intros t Ht. apply filter_In in Ht. now rewrite Z.eqb_eq in Ht. }
  set (seat_of := fun t => (Models.row t, Models.seat t)).
  assert (Hnd : NoDup (map seat_of ts)).
  { assert (H : NoDup (map Models.slot ts))
      by (apply distinct_keys_survive_filter; exact Hu).
    assert (E : map Models.slot ts
                = map (fun rc => (Models.session_id s, fst rc, snd rc))
                      (map seat_of ts)).
    { rewrite map_map. apply map_ext_in. intros t Ht.
      unfold Models.slot, seat_of. simpl.
      now rewrite (proj2 (Hts t Ht)). }
    rewrite E in H. revert H. generalize (map seat_of ts). intros l H.
    induction l as [|x l IH]; [constructor|].
    simpl in H. inversion H as [|k ks Hnin Hnd']; subst.
    constructor; [|now apply IH].
    intros Hx. apply Hnin.
    now apply (in_map (fun rc => (Models.session_id s, fst rc, snd rc))). }
  assert (Hincl : incl (map seat_of ts)
                       (list_prod (Spec.upto (Models.rows h))
                                  (Spec.upto (Models.seats_in_row h)))).
  { intros [r c] Hin. apply in_map_iff in Hin.
    destruct Hin as (t & E & Ht). injection E as <- <-.
    destruct (Hts t Ht) as [Htd Hsid].
    destruct (Hs t Htd Hsid) as [Hrow Hseat].
    apply in_prod; now apply In_upto. }
  pose proof (NoDup_incl_length Hnd Hincl) as Hlen.
  rewrite length_map, length_prod, !length_upto in Hlen.
  nia.
Qed.

(** X8: the annotation of the session query.  For every row of the
    query run on a database, [tickets_available] is the capacity of the
    hall, [rows * seats_in_row], minus the number of tickets the
    database holds for the session; it never exceeds the capacity; and
    when the tickets of the database are on distinct seats and those of
    the session lie within the hall, it is not negative. *)
Theorem tickets_available_is_capacity_minus_sold
        (d : Models.Db) (r : Django.SessionRow) :
  In r (MovieSessionViewSet.annotated d) ->
  Django.tickets_available r
  = Models.rows (Django.hall r) * Models.seats_in_row (Django.hall r)
    - Spec.sold d (Django.session r)
  /\ Django.tickets_available r
     <= Models.rows (Django.hall r) * Models.seats_in_row (Django.hall r)
  /\ (Spec.seats_unique d ->
      Spec.seated_in d (Django.session r) (Django.hall r) ->
      0 <= Models.rows (Django.hall r) ->
      0 <= Models.seats_in_row (Django.hall r) ->
      0 <= Django.tickets_available r).
Proof.
  intros Hr. apply annotated_row in Hr. destruct Hr as (_ & _ & _ & Hn).
  unfold Spec.capacity in Hn. rewrite Hn.
  split; [reflexivity|]. split.
  - unfold Spec.sold. lia.
  - intros Hu Hs H1 H2.
    pose proof (sold_le_capacity d _ _ Hu Hs H1 H2) as H.
    unfold Spec.capacity in H. lia.
Qed.

Lemma tickets_available_is_capacity_minus_sold_witness :
  exists r, In r (MovieSessionViewSet.annotated Sample.cinema)
            /\ Django.tickets_available r = 5 * 10 - 3.
Proof.
  exists (nth 0 (MovieSessionViewSet.annotated Sample.cinema)
              {| Django.session := {| Models.session_id := 0;
                                      Models.show_time := Sample.day 1;
                                      Models.movie := 0;
                                      Models.cinema_hall := 0 |};
                 Django.hall := {| Models.hall_id := 0;
                                   Models.hall_name := "none";
                                   Models.rows := 0;
                                   Models.seats_in_row := 0 |};
                 Django.tickets_available := 0 |}).
  split; [simpl; tauto|].
  refine (proj1 (tickets_available_is_capacity_minus_sold
                   Sample.cinema _ _)).
  simpl; tauto.
Defined.

(** ** [MovieSessionViewSet.retrieve] and the shared query set *)

(** The rows of the query that answer to a session key. *)
Lemma session_rows_by_key (d : Models.Db) (pk : Z) :
  Spec.halls_consistent d ->
  NoDup (map Models.session_id (Models.movie_sessions d)) ->
  (forall s, In s (Models.movie_sessions d) -> Models.session_id s = pk ->
             exists h,
               In h (Models.cinema_halls d)
               /\ Models.hall_id h = Models.cinema_hall s
               /\ filter (fun r => Models.session_id (Django.session r) =? pk)
                         (MovieSessionViewSet.annotated d)
                  = [ {| Django.session := s;
                         Django.hall := h;
                         Django.tickets_available :=
                           Models.rows h * Models.seats_in_row h
                           - Spec.sold d s |} ])
  /\ ((forall s, In s (Models.movie_sessions d) ->
                 Models.session_id s <> pk) ->
      filter (fun r => Models.session_id (Django.session r) =? pk)
             (MovieSessionViewSet.annotated d) = []).
Proof.
  intros [Hkeys Hhall] Hk. unfold MovieSessionViewSet.annotated.
  induction (Models.movie_sessions d) as [|s0 l IH].
  - split; [intros s [] | reflexivity].
  - simpl in Hk. inversion Hk as [|k ks Hnin Hk']; subst.
    destruct (IH (fun s Hs => Hhall s (or_intror Hs)) Hk') as [IHf IHn].
    destruct (Hhall s0 (or_introl eq_refl)) as (h0 & Hh0 & E0).
    cbn [flat_map].
    rewrite <- E0, (filter_finds_the_key Models.hall_id _ h0 Hkeys Hh0).
    cbn [map app filter Django.session]. rewrite Count_left_join.
    split.
    + intros s [<- | Hs] Hpk.
      * rewrite Hpk, Z.eqb_refl. exists h0.
        split; [exact Hh0|]. split; [exact E0|].
        f_equal. apply IHn. intros s' Hs' E. apply Hnin.
        rewrite Hpk, <- E. now apply in_map.
      * destruct (Z.eqb_spec (Models.session_id s0) pk) as [E | _].
        { elim Hnin. rewrite E, <- Hpk. now apply in_map. }
        now apply IHf.
    + intros Hno.
      destruct (Z.eqb_spec (Models.session_id s0) pk) as [E | _].
      * elim (Hno s0 (or_introl eq_refl) E).
      * apply IHn. intros s Hs. apply Hno. now right.
Qed.

(** X9: retrieving a session reads the database of the moment.  With
    distinct session keys and consistent halls, and no [date] and
    [movie] parameter, [retrieve] of the key of a session returns the
    row of that session with its hall and the seats left computed from
    the tickets now persisted, whatever rows the class attribute has
    cached; a key no session has is a 404; and the process is left as
    it was. *)
Theorem session_retrieve_is_current
        (q : QueryDict.t) (pk : Z) (p : Django.Process) :
  Spec.halls_consistent (Django.db p) ->
  NoDup (map Models.session_id (Models.movie_sessions (Django.db p))) ->
  Spec.blank (QueryDict.get "date" q) ->
  Spec.blank (QueryDict.get "movie" q) ->
  (forall s, In s (Models.movie_sessions (Django.db p)) ->
             Models.session_id s = pk ->
             exists h,
               In h (Models.cinema_halls (Django.db p))
               /\ Models.hall_id h = Models.cinema_hall s
               /\ MovieSessionViewSet.retrieve q pk p
                  = (inr {| Django.session := s;
                            Django.hall := h;
                            Django.tickets_available :=
                              Models.rows h * Models.seats_in_row h
                              - Spec.sold (Django.db p) s |}, p))
  /\ ((forall s, In s (Models.movie_sessions (Django.db p)) ->
                 Models.session_id s <> pk) ->
      MovieSessionViewSet.retrieve q pk p = (inl Py.Http404, p)).
Proof.
  intros Hh Hk Hd Hm.
  unfold MovieSessionViewSet.retrieve, MovieSessionViewSet.get_queryset.
  rewrite (truthy_blank _ Hd), (truthy_blank _ Hm). cbn [Py.bind Py.ret].
  assert (Hex : MovieSessionViewSet.execute (Django.db p) []
                = MovieSessionViewSet.annotated (Django.db p)).
  { unfold MovieSessionViewSet.execute. cbn [forallb].
    induction (MovieSessionViewSet.annotated (Django.db p)) as [|r l IH];
      [reflexivity|]. cbn [filter]. now rewrite IH. }
  rewrite Hex.
  destruct (session_rows_by_key (Django.db p) pk Hh Hk) as [Hfound Hnone].
  split.
  - intros s Hs Hpk. destruct (Hfound s Hs Hpk) as (h & Hin & E & ->).
    exists h. auto.
  - intros Hno. now rewrite (Hnone Hno).
Qed.

(** X10: the unfiltered session list is served from the rows of the
    first one.  Once a request without a usable [date] and [movie]
    parameter has been answered, every later such request in the
    process gets the same rows, whatever has been written to the
    database in between. *)
Theorem unfiltered_session_list_never_changes
        (q q' : QueryDict.t) (p : Django.Process) (later : Models.Db) :
  Spec.blank (QueryDict.get "date" q) ->
  Spec.blank (QueryDict.get "movie" q) ->
  Spec.blank (QueryDict.get "date" q') ->
  Spec.blank (QueryDict.get "movie" q') ->
  fst (MovieSessionViewSet.list q'
         (Django.with_db later (snd (MovieSessionViewSet.list q p))))
  = fst (MovieSessionViewSet.list q p).
Proof.
  intros Hd Hm Hd' Hm'.
  unfold MovieSessionViewSet.list, MovieSessionViewSet.get_queryset.
  rewrite (truthy_blank _ Hd), (truthy_blank _ Hm),
          (truthy_blank _ Hd'), (truthy_blank _ Hm').
  cbn [Py.bind Py.ret MovieSessionViewSet.iterate].
  destruct (Django._result_cache p) as [cached|] eqn:E.
  - cbn [snd fst Django.with_db Django._result_cache]. now rewrite E.
  - reflexivity.
Qed.

Lemma unfiltered_session_list_never_changes_witness :
  fst (MovieSessionViewSet.list [("date", EmptyString)]
         (Django.with_db (Django.db Sample.then_scheduled)
                         (snd (MovieSessionViewSet.list [] Sample.server))))
  = fst (MovieSessionViewSet.list [] Sample.server).
Proof.
  apply (unfiltered_session_list_never_changes
           [] [("date", EmptyString)] Sample.server
           (Django.db Sample.then_scheduled)).
  - now right.
  - now right.
  - now left.
  - now right.
Defined.

Lemma session_retrieve_is_current_witness :
  exists h,
    MovieSessionViewSet.retrieve [] 1 Sample.then_ordered
    = (inr {| Django.session :=
                nth 0 (Models.movie_sessions Sample.cinema)
                    {| Models.session_id := 0;
                       Models.show_time := Sample.day 1;
                       Models.movie := 0;
                       Models.cinema_hall := 0 |};
              Django.hall := h;
              Django.tickets_available :=
                Models.rows h * Models.seats_in_row h
                - Spec.sold (Django.db Sample.then_ordered)
                            (nth 0 (Models.movie_sessions Sample.cinema)
                                 {| Models.session_id := 0;
                                    Models.show_time := Sample.day 1;
                                    Models.movie := 0;
                                    Models.cinema_hall := 0 |}) |},
       Sample.then_ordered).
Proof.
  assert (Hh : Spec.halls_consistent (Django.db Sample.then_ordered)).
  { split; [simpl; repeat constructor; simpl; tauto|].
    intros s Hs.
    exists (nth 0 (Models.cinema_halls Sample.cinema)
                {| Models.hall_id := 0; Models.hall_name := "none";
                   Models.rows := 0; Models.seats_in_row := 0 |}).
    simpl in Hs. destruct Hs as [<- | [<- | []]];
      (split; [simpl; tauto | reflexivity]). }
  assert (Hk : NoDup (map Models.session_id
                          (Models.movie_sessions
                             (Django.db Sample.then_ordered)))).
  { simpl. repeat constructor; simpl; intuition discriminate. }
  destruct (proj1 (session_retrieve_is_current
                     [] 1 Sample.then_ordered Hh Hk
                     (or_intror eq_refl) (or_intror eq_refl))
                  (nth 0 (Models.movie_sessions Sample.cinema)
                       {| Models.session_id := 0;
                          Models.show_time := Sample.day 1;
                          Models.movie := 0;
                          Models.cinema_hall := 0 |}))
    as (h & _ & _ & H).
  - simpl. tauto.
  - reflexivity.
  - exists h. exact H.
Defined.

(** ** [OrderPagination] and [OrderViewSet.list] *)

Lemma write_is_not_last (n : Z) :
  String.eqb (Decimal.write n) "last" = false.
Proof.
  destruct (Z.lt_ge_cases n 0) as [Hneg | Hpos].
  - destruct (write_negative n Hneg) as (s & -> & _). reflexivity.
  - destruct (write_natural n Hpos) as [[_ Hs] _].
    destruct (String.eqb_spec (Decimal.write n) "last") as [E | _];
      [|reflexivity].
    rewrite E in Hs. discriminate Hs.
Qed.

(** What the paginator does with [?page=n] for a number [int()]
    converts. *)
Lemma paginate_on_page {A} (n : Z) (l : list A) :
  Decimal.convertible n ->
  OrderPagination.paginate_queryset [("page", Decimal.write n)] l
  = if (n <? 1) || (OrderPagination.num_pages (List.length l) <? n)
    then inl Py.Http404
    else inr (firstn OrderPagination.page_size
                (skipn (Z.to_nat (n - 1) * OrderPagination.page_size) l)).
Proof.
  intros Hn. unfold OrderPagination.paginate_queryset.
  change (QueryDict.get "page" [("page", Decimal.write n)])
    with (Some (Decimal.write n)).
  cbv beta iota. now rewrite write_is_not_last, (int_write _ Hn).
Qed.

(** A page number outside the pages is a 404, readable or not. *)
Lemma paginate_off_page {A} (n : Z) (l : list A) :
  n < 1 \/ OrderPagination.num_pages (List.length l) < n ->
  OrderPagination.paginate_queryset [("page", Decimal.write n)] l
  = inl Py.Http404.
Proof.
  intros Hn. unfold OrderPagination.paginate_queryset.
  change (QueryDict.get "page" [("page", Decimal.write n)])
    with (Some (Decimal.write n)).
  cbv beta iota. rewrite write_is_not_last.
  destruct (int_write_cases n) as [-> | ->]; [|reflexivity].
  cbn [Py.bind Py.ret].
  destruct (Z.ltb_spec n 1); [reflexivity|].
  destruct (Z.ltb_spec (OrderPagination.num_pages (List.length l)) n);
    [reflexivity | lia].
Qed.

Lemma page_is_short {A} (q : QueryDict.t) (l page : list A) :
  OrderPagination.paginate_queryset q l = inr page ->
  (List.length page <= OrderPagination.page_size)%nat.
Proof.
  unfold OrderPagination.paginate_queryset.
  generalize OrderPagination.page_size. intros size.
  destruct (match QueryDict.get "page" q with
            | Some s => _ | None => _ end) as [e|number];
    cbn [Py.bind]; [intros [=]|].
  unfold Py.raise, Py.ret.
  destruct (_ || _); [intros [=]|].
  intros [= <-]. apply firstn_le_length.
Qed.

(** Cutting a list into consecutive pieces of one size loses
    nothing. *)
Lemma pieces_cover {A} (size k : nat) (l : list A) :
  (List.length l <= k * size)%nat ->
  List.concat (map (fun i => firstn size (skipn (i * size) l)) (seq 0 k))
  = l.
Proof.
  revert l. induction k as [|k IH]; intros l Hl.
  - destruct l; [reflexivity | simpl in Hl; lia].
  - cbn [seq map List.concat]. rewrite <- seq_shift, map_map.
    cbn [Nat.mul skipn].
    transitivity (firstn size l ++ skipn size l)%list;
      [|apply firstn_skipn].
    f_equal.
    rewrite <- (IH (skipn size l)) by (simpl in Hl; rewrite length_skipn; lia).
    f_equal. apply map_ext. intros i.
    rewrite skipn_skipn. do 2 f_equal. lia.
Qed.

Lemma pages_are_enough (count : nat) :
  (count
   <= Z.to_nat (OrderPagination.num_pages count)
      * OrderPagination.page_size)%nat.
Proof.
  unfold OrderPagination.num_pages, OrderPagination.page_size.
  destruct count as [|c]; [lia|].
  set (n := Z.of_nat (S c)).
  assert (H : n <= 10 * ((n + Z.of_nat 10 - 1) / Z.of_nat 10)).
  { change (Z.of_nat 10) with 10.
    pose proof (Z.div_mod (n + 10 - 1) 10 ltac:(lia)).
    pose proof (Z.mod_pos_bound (n + 10 - 1) 10 ltac:(lia)). lia. }
  assert (0 <= (n + Z.of_nat 10 - 1) / Z.of_nat 10)
    by (apply Z.div_pos; lia).
  lia.
Qed.

Lemma owned_is_the_length (u : Z) (d : Models.Db) :
  Spec.owned u (Models.orders d)
  = List.length (OrderViewSet.get_queryset u d).
Proof.
  unfold OrderViewSet.get_queryset.
  induction (Models.orders d) as [|o os IH]; [reflexivity|].
  cbn [Spec.owned filter]. destruct (Models.user o =? u); simpl; now rewrite IH.
Qed.

Lemma num_pages_le (count : nat) :
  OrderPagination.num_pages count <= Z.max 1 (Z.of_nat count).
Proof.
  unfold OrderPagination.num_pages, OrderPagination.page_size.
  destruct count as [|c]; [lia|].
  change (Z.of_nat 10) with 10.
  assert ((Z.of_nat (S c) + 10 - 1) / 10 <= Z.of_nat (S c)); [|lia].
  apply Z.div_le_upper_bound; lia.
Qed.

Lemma owned_le (u : Z) (os : list Models.Order) :
  (Spec.owned u os <= List.length os)%nat.
Proof.
  induction os as [|o os IH]; [reflexivity|].
  cbn [Spec.owned List.length]. destruct (Models.user o =? u); lia.
Qed.

(** X11: the pages of the order list.  For an authenticated caller,
    with [n] the number of the caller's orders in the table divided by
    ten and rounded up (one for none): a page never holds more than ten
    orders, whatever the query string asks for; in a table of fewer
    than 10^4300 orders the pages [?page=1] to [?page=n] are all served,
    an order is on one of them exactly when it is an order of the table
    that belongs to the caller, and no order is on them twice if the
    table has none twice; and any other page number is a 404. *)
Theorem order_pages_partition_the_callers_orders
        (request : OrderViewSet.Request) (p : Django.Process) (u : Z) :
  OrderViewSet.user request = Some u ->
  let last :=
    OrderPagination.num_pages
      (Spec.owned u (Models.orders (Django.db p))) in
  (forall page, OrderViewSet.list request p = inr page ->
                (List.length page <= 10)%nat)
  /\ (Z.of_nat (List.length (Models.orders (Django.db p))) < 10 ^ 4300 ->
      exists pages,
        Forall2 (fun n page =>
                   OrderViewSet.list (Spec.on_page request n) p = inr page)
                (Spec.upto last) pages
        /\ (forall o, In o (List.concat pages)
                      <-> In o (Models.orders (Django.db p))
                          /\ Models.user o = u)
        /\ (NoDup (Models.orders (Django.db p)) ->
            NoDup (List.concat pages)))
  /\ (forall n, n < 1 \/ last < n ->
                OrderViewSet.list (Spec.on_page request n) p
                = inl Py.Http404).
Proof.
  intros Hu last.
  set (mine := OrderViewSet.get_queryset u (Django.db p)).
  assert (Hlast : last = OrderPagination.num_pages (List.length mine))
    by (unfold last; now rewrite owned_is_the_length).
  assert (Hlist : forall n,
             OrderViewSet.list (Spec.on_page request n) p
             = OrderPagination.paginate_queryset
                 [("page", Decimal.write n)] mine).
  { intros n. unfold OrderViewSet.list, Spec.on_page.
    cbn [OrderViewSet.user OrderViewSet.query_params]. now rewrite Hu. }
  split; [|split].
  - intros page H. unfold OrderViewSet.list in H. rewrite Hu in H.
    apply page_is_short in H. exact H.
  - intros Hsmall.
    assert (Hconv : forall n, 1 <= n <= last -> Decimal.convertible n).
    { intros n Hn. unfold Decimal.convertible.
      pose proof (num_pages_le
                    (Spec.owned u (Models.orders (Django.db p)))) as H1.
      pose proof (owned_le u (Models.orders (Django.db p))) as H2.
      fold last in H1.
      assert (1 < 10 ^ 4300) by (vm_compute; reflexivity).
      change (10 ^ Py.int_max_str_digits) with (10 ^ 4300). lia. }
    exists (map (fun i => firstn OrderPagination.page_size
                            (skipn (i * OrderPagination.page_size) mine))
                (seq 0 (Z.to_nat last))).
    split; [|assert (Hcat : List.concat
                     (map (fun i => firstn OrderPagination.page_size
                                      (skipn (i * OrderPagination.page_size)
                                             mine))
                          (seq 0 (Z.to_nat last))) = mine)
               by (apply pieces_cover; rewrite Hlast;
                   apply pages_are_enough); split].
    + unfold Spec.upto.
      assert (Hall : forall i, In i (seq 0 (Z.to_nat last)) ->
                               (i < Z.to_nat last)%nat)
        by (intros i Hi; apply in_seq in Hi; lia).
      induction (seq 0 (Z.to_nat last)) as [|i l IH]; [constructor|].
      cbn [map]. constructor; [|apply IH; intros j Hj; apply Hall; now right].
      specialize (Hall i (or_introl eq_refl)).
      rewrite Hlist, paginate_on_page by (apply Hconv; lia).
      rewrite <- Hlast.
      destruct (Z.ltb_spec (Z.of_nat i + 1) 1); [lia|].
      destruct (Z.ltb_spec last (Z.of_nat i + 1)); [lia|].
      cbn [orb]. do 4 f_equal. lia.
    + intros o. rewrite Hcat. unfold mine, OrderViewSet.get_queryset.
      now rewrite filter_In, Z.eqb_eq.
    + intros Hnd. rewrite Hcat. now apply NoDup_filter.
  - intros n Hn. rewrite Hlist. apply paginate_off_page.
    now rewrite <- Hlast.
Qed.

Lemma order_pages_partition_the_callers_orders_witness :
  (forall page,
      OrderViewSet.list (Sample.order_by 7 None []) Sample.server = inr page ->
      (List.length page <= 10)%nat)
  /\ (exists pages,
        Forall2 (fun n page =>
                   OrderViewSet.list
                     (Spec.on_page (Sample.order_by 7 None []) n)
                     Sample.server = inr page)
                [1] pages
        /\ (forall o, In o (List.concat pages)
                      <-> In o (Models.orders Sample.cinema)
                          /\ Models.user o = 7)
        /\ (NoDup (Models.orders Sample.cinema) ->
            NoDup (List.concat pages)))
  /\ OrderViewSet.list (Spec.on_page (Sample.order_by 7 None []) 2)
                       Sample.server
     = inl Py.Http404.
Proof.
  destruct (order_pages_partition_the_callers_orders
              (Sample.order_by 7 None []) Sample.server 7 eq_refl)
    as (Hshort & Hpages & Hnone).
  split; [exact Hshort|]. split.
  - apply Hpages. vm_compute. reflexivity.
  - apply Hnone. right. vm_compute. reflexivity.
Defined.
